(** * song_splitter.py: the Demucs orchestrator, as a state-and-exception program

    The script checks that [demucs] and [torch] are importable (installing
    them with pip otherwise), checks that [ffmpeg] is on the search path,
    creates the directory [separated_stems] and runs
    [python -m demucs -n htdemucs -o separated_stems <song>] as a child
    process, relaying its output.

    Everything the script does is an interaction with its surroundings, so
    the embedding is a monad over a [State] made of the [World] the script
    reads and changes (file system entries, importable modules) and the
    [trace] of interactions it has performed so far.  What the surroundings
    answer is given by an [Env]: the interpreter path, the process arguments,
    the search path, the behaviour of every child process, and whether a
    directory may be created.

    Conventions of the model:
    - paths are those of a POSIX system: [Path s] splits [s] at the
      separators and drops empty and [.] components as pathlib does, and
      [str] prints the result; the file system is asked about the printed
      form, and the working directory is the entry [.];
    - a library call raises instances of [Exception] only; [SystemExit] is
      raised by [sys_exit] alone.  Interruption of the run from outside
      (signals) is not part of the model. *)

From Stdlib Require Import ZArith List String Ascii Lia.
From stdpp Require Import base strings gmap list pretty.

Import ListNotations.
Local Open Scope Z_scope.
Local Open Scope string_scope.

(** ** Python values the script handles *)

Module Py.

(** Instances of [Exception] the script can meet.  [OtherError] stands for
    every class that none of the script's handlers names. *)
Inductive exception : Type :=
| FileNotFoundError (msg : string)
| FileExistsError (msg : string)
| CalledProcessError (returncode : Z) (cmd : list string)
| IndexError (msg : string)
| OtherError (msg : string).

(** What unwinds the stack: an [Exception], or the [SystemExit] of
    [sys.exit], which [except Exception] does not catch. *)
Inductive raised : Type :=
| Exc (e : exception)
| SystemExit (code : Z).

Inductive result (A : Type) : Type :=
| Return (a : A)
| Raise (r : raised).
Arguments Return {A} a.
Arguments Raise {A} r.

Definition newline : string := String (ascii_of_nat 10) EmptyString.

(** [repr] of a list of plain strings, as it appears in the message of
    [CalledProcessError]. *)
Fixpoint repr_items (l : list string) : string :=
  match l with
  | [] => ""
  | [x] => "'" +:+ x +:+ "'"
  | x :: rest => "'" +:+ x +:+ "', " +:+ repr_items rest
  end.

Definition repr_list (l : list string) : string := "[" +:+ repr_items l +:+ "]".

(** [str(e)]. *)
Definition exc_str (e : exception) : string :=
  match e with
  | FileNotFoundError msg => msg
  | FileExistsError msg => msg
  | CalledProcessError rc cmd =>
      "Command '" +:+ repr_list cmd +:+ "' returned non-zero exit status "
        +:+ pretty rc +:+ "."
  | IndexError msg => msg
  | OtherError msg => msg
  end.

(** [pathlib.PurePosixPath]: where the path is anchored ([/], [//] or
    nothing) and the names that follow. *)
Record PurePath : Type := mkPurePath {
  anchor : string;
  names : list string;
}.

(** The pieces of a text between separators, scanning from the left with
    the piece read so far in [acc]. *)
Fixpoint split_slash (acc s : string) : list string :=
  match s with
  | EmptyString => [acc]
  | String c rest =>
      if Ascii.eqb c "/"%char then acc :: split_slash "" rest
      else split_slash (acc +:+ String c EmptyString) rest
  end.

(** Empty pieces and [.] are not names. *)
Definition is_name (piece : string) : bool :=
  negb (String.eqb piece "" || String.eqb piece ".").

(** One leading separator anchors at [/], exactly two at [//], three or
    more at [/] again. *)
Definition anchor_of (s : string) : string :=
  match s with
  | String "/" (String "/" (String "/" _)) => "/"
  | String "/" (String "/" _) => "//"
  | String "/" _ => "/"
  | _ => ""
  end.

(** [Path(s)]. *)
Definition Path (s : string) : PurePath :=
  mkPurePath (anchor_of s) (List.filter is_name (split_slash "" s)).

Fixpoint join_slash (l : list string) : string :=
  match l with
  | [] => ""
  | [x] => x
  | x :: rest => x +:+ "/" +:+ join_slash rest
  end.

(** [str(p)]: a path without anchor and names prints as [.]. *)
Definition str (p : PurePath) : string :=
  match names p with
  | [] => if String.eqb (anchor p) "" then "." else anchor p
  | _ :: _ => anchor p +:+ join_slash (names p)
  end.

(** [p.name]: the last name, or the empty text when there is none. *)
Definition name (p : PurePath) : string := List.last (names p) "".

End Py.
Export Py.

(** ** The surroundings *)

Inductive node : Type := File | Dir.

(** Answer of [importlib.util.find_spec]. *)
Inductive lookup : Type :=
| SpecFound
| SpecNone
| SpecRaises (e : exception).

(** What the script can read and change: entries of the file system by path,
    and which modules the import machinery resolves. *)
Record World : Type := mkWorld {
  fs : gmap string node;
  find_spec : string -> lookup;
}.

(** A child process either cannot be started, or runs, writes [out] to its
    output stream, exits with [returncode] and leaves the world as [after]. *)
Inductive child : Type :=
| LaunchFails (e : exception)
| Runs (out : list string) (returncode : Z) (after : World).

Record Env : Type := mkEnv {
  sys_executable : string;
  sys_argv : list string;
  which : string -> option string;             (* shutil.which *)
  spawn : list string -> World -> child;       (* behaviour of a command *)
  resolve : World -> PurePath -> PurePath;     (* Path.resolve *)
  mkdir_error : World -> PurePath -> option exception;
    (* os.mkdir on a free name: the error it raises, if any *)
}.

(** How a started command ended, as the script sees it. *)
Inductive outcome : Type :=
| NotStarted (e : exception)
| Exited (returncode : Z).

Definition outcome_of (c : child) : outcome :=
  match c with
  | LaunchFails e => NotStarted e
  | Runs _ rc _ => Exited rc
  end.

Inductive event : Type :=
| EvStdout (text : string)                       (* written by print *)
| EvFindSpec (package : string) (r : lookup)
| EvWhich (cmd : string) (r : option string)
| EvExists (path : string) (r : bool)
| EvMkdir (path : string)                        (* a directory was created *)
| EvCheckCall (cmd : list string) (o : outcome)  (* subprocess.check_call *)
| EvPopen (cmd : list string) (o : outcome).     (* subprocess.Popen *)

Record State : Type := mkState {
  world : World;
  trace : list event;
}.

(** ** The monad of the script *)

Definition M (A : Type) : Type := State -> result A * State.

Definition ret {A} (a : A) : M A := fun st => (Return a, st).

Definition bind {A B} (m : M A) (k : A -> M B) : M B :=
  fun st =>
    match m st with
    | (Return a, st') => k a st'
    | (Raise r, st') => (Raise r, st')
    end.

Definition raise {A} (r : raised) : M A := fun st => (Raise r, st).

Declare Scope py_scope.
Delimit Scope py_scope with py.
Notation "x <- m ;; k" := (bind m (fun x => k))
  (at level 100, m at next level, right associativity) : py_scope.
Notation "m ;; k" := (bind m (fun _ => k))
  (at level 100, right associativity) : py_scope.
Local Open Scope py_scope.

(** [try: body except Exception as e: handler e].  A [SystemExit] passes
    through. *)
Definition try_except {A} (body : M A) (handler : exception -> M A) : M A :=
  fun st =>
    match body st with
    | (Raise (Exc e), st') => handler e st'
    | other => other
    end.

Definition emit (ev : event) : M unit :=
  fun st => (Return tt, mkState (world st) (trace st ++ [ev])).

Definition get_world : M World := fun st => (Return (world st), st).

Definition set_world (w : World) : M unit :=
  fun st => (Return tt, mkState w (trace st)).

Fixpoint for_each {A} (l : list A) (body : A -> M unit) : M unit :=
  match l with
  | [] => ret tt
  | x :: rest => body x ;; for_each rest body
  end.

(** [print(s)] and [print(s, end="")]. *)
Definition print (s : string) : M unit := emit (EvStdout (s +:+ newline)).
Definition print_end (s : string) : M unit := emit (EvStdout s).

(** [sys.exit(code)]. *)
Definition sys_exit {A} (code : Z) : M A := raise (SystemExit code).

(** [l[i]]. *)
Definition getitem (l : list string) (i : nat) : M string :=
  match l !! i with
  | Some x => ret x
  | None => raise (Exc (IndexError "list index out of range"))
  end.

(** ** The library calls the script makes *)

Section Script.

Variable env : Env.

(** [importlib.util.find_spec(package) is not None]. *)
Definition find_spec_is_not_None (package : string) : M bool :=
  w <- get_world ;;
  emit (EvFindSpec package (find_spec w package)) ;;
  match find_spec w package with
  | SpecFound => ret true
  | SpecNone => ret false
  | SpecRaises e => raise (Exc e)
  end.

(** [shutil.which(cmd)]. *)
Definition shutil_which (cmd : string) : M (option string) :=
  emit (EvWhich cmd (which env cmd)) ;;
  ret (which env cmd).

(** [subprocess.check_call(cmd)]: the child inherits the terminal, so its
    output is not written by the script; a non-zero exit status becomes
    [CalledProcessError]. *)
Definition check_call (cmd : list string) : M unit :=
  w <- get_world ;;
  emit (EvCheckCall cmd (outcome_of (spawn env cmd w))) ;;
  match spawn env cmd w with
  | LaunchFails e => raise (Exc e)
  | Runs _ rc after =>
      set_world after ;;
      if Z.eqb rc 0 then ret tt else raise (Exc (CalledProcessError rc cmd))
  end.

(** [subprocess.Popen(cmd, stdout=PIPE, stderr=STDOUT, text=True)]: the
    handle gives the merged output stream line by line; [wait] blocks until
    the child has exited, after which its changes to the world are in place. *)
Record process : Type := mkProcess {
  stdout : list string;
  exit_code : Z;
  world_after : World;
}.

Definition Popen (cmd : list string) : M process :=
  w <- get_world ;;
  emit (EvPopen cmd (outcome_of (spawn env cmd w))) ;;
  match spawn env cmd w with
  | LaunchFails e => raise (Exc e)
  | Runs out rc after => ret (mkProcess out rc after)
  end.

Definition wait (p : process) : M Z :=
  set_world (world_after p) ;;
  ret (exit_code p).

(** [p.exists()]. *)
Definition exists_ (p : PurePath) : M bool :=
  w <- get_world ;;
  emit (EvExists (str p) (bool_decide (is_Some (fs w !! str p)))) ;;
  ret (bool_decide (is_Some (fs w !! str p))).

(** [p.mkdir(exist_ok=...)]: on a free name the directory is made unless
    the system refuses (no permission, read-only file system, parent gone),
    and then its error is raised; an existing directory is accepted when
    [exist_ok] is set; any other existing entry is refused with
    [FileExistsError]. *)
Definition mkdir (p : PurePath) (exist_ok : bool) : M unit :=
  w <- get_world ;;
  match fs w !! str p with
  | None =>
      match mkdir_error env w p with
      | Some e => raise (Exc e)
      | None =>
          set_world (mkWorld (<[str p := Dir]> (fs w)) (find_spec w)) ;;
          emit (EvMkdir (str p))
      end
  | Some Dir =>
      if exist_ok then ret tt
      else raise (Exc (FileExistsError ("[Errno 17] File exists: '" +:+ str p +:+ "'")))
  | Some File =>
      raise (Exc (FileExistsError ("[Errno 17] File exists: '" +:+ str p +:+ "'")))
  end.

(** ** song_splitter.py *)

Definition check_installed (package : string) : M bool :=
  try_except
    (find_spec_is_not_None package)
    (fun _ => ret false).

Definition install_package (package : string) : M unit :=
  print ("📦 Installing " +:+ package +:+ " ...") ;;
  check_call [sys_executable env; "-m"; "pip"; "install"; package].

Definition torch_install_cmd : list string :=
  [sys_executable env; "-m"; "pip"; "install"; "torch";
   "--index-url"; "https://download.pytorch.org/whl/cpu"].

Definition ensure_dependencies : M unit :=
  have_demucs <- check_installed "demucs" ;;
  (if negb have_demucs then install_package "demucs" else ret tt) ;;
  have_torch <- check_installed "torch" ;;
  (if negb have_torch then
     (print "📦 Installing PyTorch (CPU version)..." ;;
      check_call torch_install_cmd)
   else ret tt) ;;
  ffmpeg <- shutil_which "ffmpeg" ;;
  match ffmpeg with
  | None =>
      print "⚠ FFmpeg not found in PATH." ;;
      print "Please install FFmpeg manually:" ;;
      print " - Windows: choco install ffmpeg  (or download from ffmpeg.org)" ;;
      print " - Linux: sudo apt install ffmpeg" ;;
      print " - macOS: brew install ffmpeg" ;;
      sys_exit 1
  | Some _ => ret tt
  end.

Definition output_dir : PurePath := Path "separated_stems".

Definition demucs_cmd (song_path : PurePath) : list string :=
  [sys_executable env; "-m"; "demucs";
   "-n"; "htdemucs";
   "-o"; str output_dir;
   str song_path].

Definition separate_song (song_path : PurePath) : M unit :=
  mkdir output_dir true ;;
  print (newline +:+ "🎧 Splitting: " +:+ name song_path) ;;
  try_except
    (process <- Popen (demucs_cmd song_path) ;;
     for_each (stdout process) print_end ;;
     returncode <- wait process ;;
     if Z.eqb returncode 0 then
       (w <- get_world ;;
        print (newline +:+ "✅ Done! Separated stems saved in: "
                 +:+ str (resolve env w output_dir)))
     else
       print (newline +:+ "❌ Error during Demucs run. Please check above logs."))
    (fun e =>
       match e with
       | FileNotFoundError _ =>
           print (newline
                    +:+ "❌ Failed to run demucs. Is it installed and available as a module?"
                    +:+ " " +:+ exc_str e)
       | _ =>
           print (newline +:+ "❌ Unexpected error while running demucs:"
                    +:+ " " +:+ exc_str e)
       end).

(** [argv or sys.argv]: [None] and the empty list are both false. *)
Definition or_sys_argv (argv : option (list string)) : list string :=
  match argv with
  | Some (a :: rest) => a :: rest
  | Some [] | None => sys_argv env
  end.

Definition main (argv : option (list string)) : M Z :=
  let argv := or_sys_argv argv in
  if (length argv <? 2)%nat then
    (print "Usage: python song_splitter.py <path_to_song.mp3>" ;;
     ret 1)
  else
    (arg <- getitem argv 1 ;;
     let song_path := Path arg in
     found <- exists_ song_path ;;
     if negb found then
       (print ("❌ File not found: " +:+ str song_path) ;;
        ret 1)
     else
       (ensure_dependencies ;;
        separate_song song_path ;;
        ret 0)).

(** [raise SystemExit(main())] under [__main__]: the status the process ends
    with.  An exception that reaches the top level ends it with status 1. *)
Definition raised_status (r : raised) : Z :=
  match r with
  | SystemExit code => code
  | Exc _ => 1
  end.

Definition exit_status (r : result Z) : Z :=
  match r with
  | Return n => n
  | Raise r => raised_status r
  end.

Definition script (st : State) : Z * State :=
  let (r, st') := main None st in (exit_status r, st').

End Script.

(** ** Reading a run *)

(** The events a computation added when it took [st] to [st']. *)
Definition since (st st' : State) : list event :=
  drop (length (trace st)) (trace st').

(** The commands handed to [subprocess], in the order they were started. *)
Definition launched (ev : event) : option (list string) :=
  match ev with
  | EvCheckCall cmd _ | EvPopen cmd _ => Some cmd
  | _ => None
  end.

Definition launches (t : list event) : list (list string) := omap launched t.

(** The directories created. *)
Definition created (ev : event) : option string :=
  match ev with
  | EvMkdir path => Some path
  | _ => None
  end.

Definition mkdirs (t : list event) : list string := omap created t.

Definition is_found (r : lookup) : bool :=
  match r with
  | SpecFound => true
  | SpecNone | SpecRaises _ => false
  end.

(** The world a child leaves behind, [w] being the world it was started in. *)
Definition left_by (c : child) (w : World) : World :=
  match c with
  | LaunchFails _ => w
  | Runs _ _ after => after
  end.

(** The world once [separated_stems] has been made sure of. *)
Definition with_output_dir (w : World) : World :=
  match fs w !! str output_dir with
  | None => mkWorld (<[str output_dir := Dir]> (fs w)) (find_spec w)
  | Some _ => w
  end.

(** The output directory is there, or the system lets it be made. *)
Definition output_dir_ready (env : Env) (w : World) : Prop :=
  match fs w !! str output_dir with
  | Some Dir => True
  | Some File => False
  | None => mkdir_error env w output_dir = None
  end.

Definition usage_text : string :=
  "Usage: python song_splitter.py <path_to_song.mp3>" +:+ newline.

Definition not_found_text (p : string) : string :=
  "❌ File not found: " +:+ p +:+ newline.

Definition done_text (where_ : string) : string :=
  newline +:+ "✅ Done! Separated stems saved in: " +:+ where_ +:+ newline.

Definition run_error_text : string :=
  newline +:+ "❌ Error during Demucs run. Please check above logs." +:+ newline.

Definition launch_failed_text (e : exception) : string :=
  newline +:+ "❌ Failed to run demucs. Is it installed and available as a module?"
    +:+ " " +:+ exc_str e +:+ newline.

Definition unexpected_text (e : exception) : string :=
  newline +:+ "❌ Unexpected error while running demucs:"
    +:+ " " +:+ exc_str e +:+ newline.

Definition splitting_text (p : PurePath) : string :=
  newline +:+ "🎧 Splitting: " +:+ name p +:+ newline.

(** The diagnostic of the handler that catches [e]. *)
Definition diagnostic (e : exception) : string :=
  match e with
  | FileNotFoundError _ => launch_failed_text e
  | _ => unexpected_text e
  end.

(** What [separate_song] writes once the child has been dealt with. *)
Definition report (env : Env) (c : child) : list event :=
  match c with
  | LaunchFails e => [EvStdout (diagnostic e)]
  | Runs out rc after =>
      map EvStdout out
        ++ [EvStdout (if Z.eqb rc 0
                      then done_text (str (resolve env after output_dir))
                      else run_error_text)]
  end.

(** The [Popen] calls of a trace, with how each ended. *)
Definition popened (ev : event) : option (list string * outcome) :=
  match ev with
  | EvPopen cmd o => Some (cmd, o)
  | _ => None
  end.

Definition popens (t : list event) : list (list string * outcome) :=
  omap popened t.

(** The checks and installations of a trace, without their answers. *)
Inductive step : Type :=
| CheckModule (package : string)
| Install (cmd : list string)
| CheckPath (cmd : string).

Definition step_of (ev : event) : option step :=
  match ev with
  | EvFindSpec package _ => Some (CheckModule package)
  | EvCheckCall cmd _ => Some (Install cmd)
  | EvWhich cmd _ => Some (CheckPath cmd)
  | _ => None
  end.

Definition steps (t : list event) : list step := omap step_of t.

(** Whether a trace records that the lookup of [package] found nothing. *)
Definition missing (package : string) (t : list event) : bool :=
  existsb (fun ev =>
             match ev with
             | EvFindSpec q r => String.eqb q package && negb (is_found r)
             | _ => false
             end) t.

(** The order the specification gives: the separation library, installed
    from the default index if missing; then the numerical backend, installed
    in its CPU build from the PyTorch index if missing; then the decoder. *)
Definition plan (env : Env) (demucs_missing torch_missing : bool) : list step :=
  [CheckModule "demucs"]
    ++ (if demucs_missing
        then [Install [sys_executable env; "-m"; "pip"; "install"; "demucs"]]
        else [])
    ++ [CheckModule "torch"]
    ++ (if torch_missing
        then [Install [sys_executable env; "-m"; "pip"; "install"; "torch";
                       "--index-url"; "https://download.pytorch.org/whl/cpu"]]
        else [])
    ++ [CheckPath "ffmpeg"].



(** The state [main] hands to [ensure_dependencies] once it has found the
    input [p]. *)
Definition input_found (st : State) (p : string) : State :=
  mkState (world st) (trace st ++ [EvExists (str (Path p)) true]).

(** ** The stages of [ensure_dependencies] *)

Section StageDefinitions.

Variable env : Env.

(** The shape shared by the first two stages of [ensure_dependencies]:
    look the module up and, if the lookup found nothing, announce and
    install. *)
Definition ensure_module (package announce : string) (cmd : list string) : M unit :=
  have <- check_installed package ;;
  if negb have then (print announce ;; check_call env cmd) else ret tt.

(** The last stage: the decoder must be on the path. *)
Definition check_decoder : M unit :=
  ffmpeg <- shutil_which env "ffmpeg" ;;
  match ffmpeg with
  | None =>
      print "⚠ FFmpeg not found in PATH." ;;
      print "Please install FFmpeg manually:" ;;
      print " - Windows: choco install ffmpeg  (or download from ffmpeg.org)" ;;
      print " - Linux: sudo apt install ffmpeg" ;;
      print " - macOS: brew install ffmpeg" ;;
      sys_exit 1
  | Some _ => ret tt
  end.

Definition pip_install_demucs : list string :=
  [sys_executable env; "-m"; "pip"; "install"; "demucs"].

(** What is printed when the decoder is not found. *)
Definition decoder_guidance : list event :=
  [EvStdout ("⚠ FFmpeg not found in PATH." +:+ newline);
   EvStdout ("Please install FFmpeg manually:" +:+ newline);
   EvStdout (" - Windows: choco install ffmpeg  (or download from ffmpeg.org)"
               +:+ newline);
   EvStdout (" - Linux: sudo apt install ffmpeg" +:+ newline);
   EvStdout (" - macOS: brew install ffmpeg" +:+ newline)].

End StageDefinitions.

(** ** Concrete surroundings used in the examples *)

Module Sample.

Definition python : string := "/usr/bin/python3".

Definition on_path (cmd : string) : option string :=
  if String.eqb cmd "ffmpeg" then Some "/usr/bin/ffmpeg" else None.

Definition nothing_on_path (cmd : string) : option string := None.

Definition absolute (w : World) (p : PurePath) : PurePath :=
  Path ("/home/user/" +:+ str p).

(** Every command runs, prints two lines and exits with [rc]. *)
Definition exits_with (rc : Z) (cmd : list string) (w : World) : child :=
  Runs ["Separating track"; "done"] rc w.

(** No command can be started. *)
Definition no_interpreter (cmd : list string) (w : World) : child :=
  LaunchFails (FileNotFoundError "[Errno 2] No such file or directory: 'python3'").

Definition all_modules (package : string) : lookup := SpecFound.
Definition no_modules (package : string) : lookup := SpecNone.
Definition broken_finder (package : string) : lookup :=
  SpecRaises (OtherError "demucs.__spec__ is None").

(** Every directory may be made. *)
Definition writable (w : World) (p : PurePath) : option exception := None.

(** No directory may be made. *)
Definition read_only (w : World) (p : PurePath) : option exception :=
  Some (OtherError ("[Errno 13] Permission denied: '" +:+ str p +:+ "'")).

Definition env (argv : list string) (rc : Z) : Env :=
  mkEnv python argv on_path (exits_with rc) absolute writable.

(** The entries of a working directory that holds [song.mp3]. *)
Definition song_dir : gmap string node :=
  <["song.mp3" := File]> {[ "." := Dir ]}.

(** A directory holding [song.mp3] only. *)
Definition song_only : World := mkWorld song_dir all_modules.

(** The same, with the output directory left by an earlier run. *)
Definition song_and_stems : World :=
  mkWorld (<["separated_stems" := Dir]> song_dir) all_modules.


Definition fresh (w : World) : State := mkState w [].

End Sample.

(** ** Proof steps *)

(** Membership in a list written out. *)
Ltac in_list := cbn [In]; solve [repeat (first [left; reflexivity | right])].

(** Closes a goal in which every installation is assumed to have exited
    with 0 although the trace holds one that did not. *)
Ltac failed_install Hok :=
  exfalso;
  match type of Hok with
  | forall cmd o, In _ ?t -> _ =>
      match t with
      | context [EvCheckCall ?c (NotStarted ?e)] =>
          let Hx := fresh in
          assert (Hx : NotStarted e = Exited 0) by (apply (Hok c); in_list);
          discriminate Hx
      | context [EvCheckCall ?c (Exited ?rc)] =>
          let Hx := fresh in
          assert (Hx : Exited rc = Exited 0) by (apply (Hok c); in_list);
          injection Hx as ->; discriminate
      end
  end.

(** ** How the pieces run *)

Section Runs.

Variable env : Env.

Lemma since_app (st : State) (w : World) (t : list event) :
  since st (mkState w (trace st ++ t)) = t.
Proof. unfold since; simpl. apply drop_app_length. Qed.

Lemma since_eq (st st' : State) (t : list event) :
  trace st' = (trace st ++ t)%list -> since st st' = t.
Proof. intros H. unfold since. rewrite H. apply drop_app_length. Qed.

Lemma since_same (st : State) (w : World) :
  since st (mkState w (trace st)) = [].
Proof. unfold since; simpl. apply drop_all. Qed.

Lemma bind_Return {A B} (m : M A) (k : A -> M B) (st st' : State) (a : A) :
  m st = (Return a, st') -> bind m k st = k a st'.
Proof. intros H. unfold bind. now rewrite H. Qed.

Lemma bind_Raise {A B} (m : M A) (k : A -> M B) (st st' : State) (r : raised) :
  m st = (Raise r, st') -> bind m k st = (Raise r, st').
Proof. intros H. unfold bind. now rewrite H. Qed.

Lemma print_run (s : string) (st : State) :
  print s st = (Return tt, mkState (world st) (trace st ++ [EvStdout (s +:+ newline)])).
Proof. reflexivity. Qed.

Lemma for_each_print_end (out : list string) (st : State) :
  for_each out print_end st
  = (Return tt, mkState (world st) (trace st ++ map EvStdout out)).
Proof.
  revert st. induction out as [|line out IH]; intros st.
  - simpl. rewrite app_nil_r. now destruct st.
  - cbn [for_each]. unfold bind at 1. unfold print_end at 1, emit at 1.
    rewrite IH. cbn [world trace map]. now rewrite <- app_assoc.
Qed.

Lemma check_installed_run (package : string) (st : State) :
  check_installed package st
  = (Return (is_found (find_spec (world st) package)),
     mkState (world st)
             (trace st ++ [EvFindSpec package (find_spec (world st) package)])).
Proof.
  unfold check_installed, try_except, find_spec_is_not_None, bind, get_world, emit.
  cbn [world trace]. now destruct (find_spec (world st) package).
Qed.

(** [separate_song] when nothing but a directory can be in the way: the
    events it adds and the world it ends in. *)
Lemma str_output_dir : str output_dir = "separated_stems".
Proof. reflexivity. Qed.

Lemma separate_song_run (p : PurePath) (st : State) :
  output_dir_ready env (world st) ->
  separate_song env p st
  = (Return tt,
     mkState
       (left_by (spawn env (demucs_cmd env p) (with_output_dir (world st)))
                (with_output_dir (world st)))
       (trace st
          ++ match fs (world st) !! str output_dir with
             | None => [EvMkdir (str output_dir)]
             | Some _ => []
             end
          ++ [EvStdout (splitting_text p);
              EvPopen (demucs_cmd env p)
                (outcome_of (spawn env (demucs_cmd env p)
                               (with_output_dir (world st))))]
          ++ report env (spawn env (demucs_cmd env p) (with_output_dir (world st))))).
Proof.
  intros Hready. unfold output_dir_ready in Hready.
  unfold separate_song, with_output_dir.
  unfold bind at 1. unfold mkdir, bind at 1, get_world at 1.
  cbn [world].
  destruct (fs (world st) !! str output_dir) as [[|]|] eqn:Hdir;
    [destruct Hready| |rewrite Hready].
  - (* the directory is already there *)
    cbn [ret]. unfold bind at 1. rewrite print_run. cbn [world trace].
    unfold try_except, Popen. unfold bind at 1, get_world at 1.
    unfold bind at 1, emit at 1. cbn [world trace].
    destruct (spawn env (demucs_cmd env p) (world st)) as [e|out rc after].
    + unfold bind at 1, raise. cbn [outcome_of left_by report].
      destruct e; rewrite print_run; cbn [world trace];
        now rewrite <- !app_assoc.
    + unfold bind at 1, ret at 1. unfold bind at 1. rewrite for_each_print_end.
      unfold bind at 1, wait, bind at 1, set_world. cbn [world trace ret].
      cbn [world_after exit_code stdout outcome_of left_by report].
      destruct (Z.eqb rc 0).
      * unfold bind, get_world. rewrite print_run. cbn [world trace].
        now rewrite <- !app_assoc.
      * rewrite print_run. cbn [world trace]. now rewrite <- !app_assoc.
  - (* the directory has to be made *)
    unfold bind at 1. unfold bind at 1, set_world at 1, emit at 1.
    cbn [world trace]. unfold bind at 1. rewrite print_run. cbn [world trace].
    unfold try_except, Popen. unfold bind at 1, get_world at 1.
    unfold bind at 1, emit at 1. cbn [world trace].
    destruct (spawn env (demucs_cmd env p) _) as [e|out rc after].
    + unfold bind at 1, raise. cbn [outcome_of left_by report].
      destruct e; rewrite print_run; cbn [world trace];
        now rewrite <- !app_assoc.
    + unfold bind at 1, ret at 1. unfold bind at 1. rewrite for_each_print_end.
      unfold bind at 1, wait, bind at 1, set_world. cbn [world trace ret].
      cbn [world_after exit_code stdout outcome_of left_by report].
      destruct (Z.eqb rc 0).
      * unfold bind, get_world. rewrite print_run. cbn [world trace].
        now rewrite <- !app_assoc.
      * rewrite print_run. cbn [world trace]. now rewrite <- !app_assoc.
Qed.

(** [separate_song] with a plain file in the way: [mkdir] refuses, before
    the [try] is entered. *)
Lemma separate_song_blocked (p : PurePath) (st : State) :
  fs (world st) !! str output_dir = Some File ->
  separate_song env p st
  = (Raise (Exc (FileExistsError
                   ("[Errno 17] File exists: '" +:+ str output_dir +:+ "'"))),
     st).
Proof.
  intros Hfile. unfold separate_song.
  unfold bind at 1. unfold mkdir, bind at 1, get_world at 1.
  rewrite Hfile. reflexivity.
Qed.

(** [separate_song] when nothing is at the name of the output directory
    and the system refuses to make it: the error of [mkdir] comes out,
    before the [try] is entered. *)
Lemma separate_song_refused (p : PurePath) (st : State) (e : exception) :
  fs (world st) !! str output_dir = None ->
  mkdir_error env (world st) output_dir = Some e ->
  separate_song env p st = (Raise (Exc e), st).
Proof.
  intros Hfree Hrefused. unfold separate_song.
  unfold bind at 1. unfold mkdir, bind at 1, get_world at 1. cbn [world].
  rewrite Hfree, Hrefused. reflexivity.
Qed.


(** [main] up to the moment the input has been found. *)
Lemma main_run_existing (argv : option (list string)) (p : string) (st : State) :
  or_sys_argv env argv !! 1%nat = Some p ->
  is_Some (fs (world st) !! str (Path p)) ->
  main env argv st
  = bind (ensure_dependencies env)
         (fun _ => bind (separate_song env (Path p)) (fun _ => ret 0))
         (mkState (world st) (trace st ++ [EvExists (str (Path p)) true])).
Proof.
  intros Harg Hex. unfold main.
  assert (Hlen : (length (or_sys_argv env argv) <? 2)%nat = false).
  { apply Nat.ltb_ge. apply lookup_lt_Some in Harg. lia. }
  rewrite Hlen. unfold bind at 1, getitem. rewrite Harg. cbn [ret].
  unfold bind at 1, exists_, bind at 1, get_world at 1.
  unfold bind at 1, emit at 1. cbn [world trace ret str].
  rewrite bool_decide_eq_true_2 by exact Hex. reflexivity.
Qed.


Lemma report_prints (c : child) (ev : event) :
  In ev (report env c) -> exists text, ev = EvStdout text.
Proof.
  destruct c as [e|out rc after]; cbn [report].
  - intros [<-|[]]. now eexists.
  - rewrite in_app_iff, in_map_iff. intros [(line & <- & _)|[<-|[]]]; now eexists.
Qed.

Lemma launches_report (c : child) : launches (report env c) = [].
Proof.
  destruct c as [e|out rc after]; cbn [report]; [reflexivity|].
  unfold launches. rewrite omap_app. cbn [omap launched app].
  rewrite app_nil_r. induction out as [|line out IH]; [reflexivity|exact IH].
Qed.

Lemma mkdirs_report (c : child) : mkdirs (report env c) = [].
Proof.
  destruct c as [e|out rc after]; cbn [report]; [reflexivity|].
  unfold mkdirs. rewrite omap_app. cbn [omap created app].
  rewrite app_nil_r. induction out as [|line out IH]; [reflexivity|exact IH].
Qed.


(** [main] without a path argument. *)
Lemma main_run_usage (argv : option (list string)) (st : State) :
  (length (or_sys_argv env argv) < 2)%nat ->
  main env argv st
  = (Return 1%Z, mkState (world st) (trace st ++ [EvStdout usage_text])).
Proof. intros Hlen. unfold main. apply Nat.ltb_lt in Hlen. now rewrite Hlen. Qed.

(** [main] with a path argument that names nothing. *)
Lemma main_run_missing (argv : option (list string)) (p : string) (st : State) :
  or_sys_argv env argv !! 1%nat = Some p ->
  fs (world st) !! str (Path p) = None ->
  main env argv st
  = (Return 1%Z,
     mkState (world st)
       (trace st ++ [EvExists (str (Path p)) false;
                           EvStdout (not_found_text (str (Path p)))])).
Proof.
  intros Harg Hnone. unfold main.
  assert (Hlen : (length (or_sys_argv env argv) <? 2)%nat = false).
  { apply Nat.ltb_ge. apply lookup_lt_Some in Harg. lia. }
  rewrite Hlen. unfold bind at 1, getitem. rewrite Harg. cbn [ret].
  unfold bind at 1, exists_, bind at 1, get_world at 1.
  unfold bind at 1, emit at 1. cbn [world trace ret str].
  rewrite bool_decide_eq_false_2 by (rewrite Hnone; apply is_Some_None).
  cbn [negb]. unfold bind. rewrite print_run. cbn [world trace ret str].
  now rewrite <- app_assoc.
Qed.

End Runs.

(** ** The availability check *)


Example check_installed_broken_finder :
  fst (check_installed "demucs"
         (Sample.fresh (mkWorld ∅ Sample.broken_finder)))
  = Return false.
Proof. reflexivity. Qed.

(** ** The entry point: early returns *)



(** C9: called with an empty argument list, [main] does not report a usage
    error for that list.  It does exactly what it does when called with no
    list at all, that is, it works on the arguments of the process; so the
    same call returns 1 in one process and runs the separation and returns
    0 in another. *)
Theorem main_empty_argv_uses_sys_argv :
  (forall (env : Env) (st : State),
      main env (Some []) st = main env None st
      /\ main env (Some []) st = main env (Some (sys_argv env)) st)
  /\ (fst (main (Sample.env ["song_splitter.py"] 0) (Some [])
             (Sample.fresh Sample.song_only)) = Return 1%Z
      /\ fst (main (Sample.env ["song_splitter.py"; "song.mp3"] 0) (Some [])
                (Sample.fresh Sample.song_only)) = Return 0%Z
      /\ launches (trace (snd (main (Sample.env ["song_splitter.py"; "song.mp3"] 0)
                                 (Some []) (Sample.fresh Sample.song_only))))
         = [[Sample.python; "-m"; "demucs"; "-n"; "htdemucs";
             "-o"; "separated_stems"; "song.mp3"]]).
Proof.
  split.
  - intros env st. split; [reflexivity|].
    unfold main, or_sys_argv. now destruct (sys_argv env).
  - repeat split; vm_compute; reflexivity.
Qed.

(** ** The separation step *)



(** Whether the output directory is ready can be told. *)
Lemma output_dir_ready_dec (env : Env) (w : World) :
  output_dir_ready env w \/ ~ output_dir_ready env w.
Proof.
  unfold output_dir_ready.
  destruct (fs w !! str output_dir) as [[|]|]; [right; tauto|left; exact I|].
  destruct (mkdir_error env w output_dir); [right; discriminate|now left].
Qed.

(** When the output directory is not ready, [separate_song] is left by an
    exception before it has done anything. *)
Lemma separate_song_not_ready (env : Env) (p : PurePath) (st : State) :
  ~ output_dir_ready env (world st) ->
  exists e : exception, separate_song env p st = (Raise (Exc e), st).
Proof.
  unfold output_dir_ready. intros Hnot.
  destruct (fs (world st) !! str output_dir) as [[|]|] eqn:Hdir.
  - eexists. now apply separate_song_blocked.
  - destruct Hnot. exact I.
  - destruct (mkdir_error env (world st) output_dir) as [e|] eqn:Herr;
      [|now destruct Hnot].
    exists e. now apply separate_song_refused.
Qed.






(** C7, as the code has it: what [separate_song] does about the output
    directory.  When nothing is at [separated_stems] and the system lets the
    directory be made, it is made, once, and the child starts in a world that
    has it; when the directory is already there, nothing is made and the
    child starts in the world as it was.  In both cases no error is raised,
    and the world [separate_song] ends in is the one the child leaves behind
    (that very world when the child cannot be started): the script itself
    removes or changes nothing. *)
Theorem separate_song_output_dir (env : Env) (p : PurePath) (st : State) :
  (fs (world st) !! "separated_stems" = None ->
   mkdir_error env (world st) output_dir = None ->
   fst (separate_song env p st) = Return tt
   /\ mkdirs (since st (snd (separate_song env p st))) = ["separated_stems"]
   /\ world (snd (separate_song env p st))
      = left_by
          (spawn env (demucs_cmd env p)
             (mkWorld (<["separated_stems" := Dir]> (fs (world st)))
                      (find_spec (world st))))
          (mkWorld (<["separated_stems" := Dir]> (fs (world st)))
                   (find_spec (world st))))
  /\ (fs (world st) !! "separated_stems" = Some Dir ->
      fst (separate_song env p st) = Return tt
      /\ mkdirs (since st (snd (separate_song env p st))) = []
      /\ world (snd (separate_song env p st))
         = left_by (spawn env (demucs_cmd env p) (world st)) (world st)).
Proof.
  change "separated_stems" with (str output_dir).
  split.
  - intros Hdir Hallowed.
    rewrite (separate_song_run env p st)
      by (unfold output_dir_ready; now rewrite Hdir).
    cbn [fst snd world]. rewrite since_app. unfold with_output_dir.
    rewrite Hdir. split; [reflexivity|]. split; [|reflexivity].
    unfold mkdirs. rewrite !omap_app.
    fold (mkdirs (report env (spawn env (demucs_cmd env p)
                    (mkWorld (<[str output_dir := Dir]> (fs (world st)))
                             (find_spec (world st)))))).
    rewrite mkdirs_report. reflexivity.
  - intros Hdir.
    rewrite (separate_song_run env p st)
      by (unfold output_dir_ready; now rewrite Hdir).
    cbn [fst snd world]. rewrite since_app. unfold with_output_dir.
    rewrite Hdir. split; [reflexivity|]. split; [|reflexivity].
    unfold mkdirs. rewrite !omap_app.
    fold (mkdirs (report env (spawn env (demucs_cmd env p) (world st)))).
    rewrite mkdirs_report. reflexivity.
Qed.

Lemma separate_song_output_dir_witness :
  fs (world (snd (separate_song (Sample.env [] 0) (Path "song.mp3")
                    (Sample.fresh Sample.song_only))))
  = <["separated_stems" := Dir]> Sample.song_dir
  /\ world (snd (separate_song (Sample.env [] 0) (Path "song.mp3")
                   (Sample.fresh Sample.song_and_stems)))
     = Sample.song_and_stems.
Proof.
  split.
  - rewrite (proj2 (proj2 (proj1 (separate_song_output_dir
                                    (Sample.env [] 0) (Path "song.mp3")
                                    (Sample.fresh Sample.song_only))
                                 eq_refl eq_refl))).
    reflexivity.
  - rewrite (proj2 (proj2 (proj2 (separate_song_output_dir
                                    (Sample.env [] 0) (Path "song.mp3")
                                    (Sample.fresh Sample.song_and_stems))
                                 eq_refl))).
    reflexivity.
Defined.

(** C7 as stated fails: nothing is at [separated_stems], but the working
    directory does not allow a directory to be made; [separate_song] is left
    by the error of [mkdir], nothing has been made and the name is still
    free. *)
Lemma separate_song_cannot_make_refused_dir :
  fs Sample.song_only !! "separated_stems" = None
  /\ fst (separate_song
            (mkEnv Sample.python [] Sample.on_path (Sample.exits_with 0)
               Sample.absolute Sample.read_only)
            (Path "song.mp3") (Sample.fresh Sample.song_only))
     = Raise (Exc (OtherError "[Errno 13] Permission denied: 'separated_stems'"))
  /\ mkdirs (trace (snd (separate_song
                           (mkEnv Sample.python [] Sample.on_path
                              (Sample.exits_with 0) Sample.absolute
                              Sample.read_only)
                           (Path "song.mp3") (Sample.fresh Sample.song_only))))
     = []
  /\ fs (world (snd (separate_song
                       (mkEnv Sample.python [] Sample.on_path
                          (Sample.exits_with 0) Sample.absolute
                          Sample.read_only)
                       (Path "song.mp3") (Sample.fresh Sample.song_only))))
       !! "separated_stems"
     = None.
Proof. repeat split; vm_compute; reflexivity. Qed.

(** Running twice: the second run finds the directory the first one made
    and makes nothing. *)
Example separate_song_twice :
  mkdirs (trace (snd (separate_song (Sample.env [] 0) (Path "song.mp3")
                        (snd (separate_song (Sample.env [] 0) (Path "song.mp3")
                                (Sample.fresh Sample.song_only))))))
  = ["separated_stems"].
Proof. vm_compute. reflexivity. Qed.

(** ** The entry point: a complete run *)




(** ** The prerequisites *)

Section Stages.

Variable env : Env.

Lemma ensure_dependencies_stages (st : State) :
  ensure_dependencies env st
  = bind (ensure_module env "demucs" "📦 Installing demucs ..."
            (pip_install_demucs env))
      (fun _ =>
         bind (ensure_module env "torch" "📦 Installing PyTorch (CPU version)..."
                 (torch_install_cmd env))
           (fun _ => check_decoder env))
      st.
Proof.
  unfold ensure_dependencies, ensure_module, install_package, check_decoder.
  unfold bind.
  destruct (check_installed "demucs" st) as [[have_demucs|r] st1]; [|reflexivity].
  destruct have_demucs; cbn [negb].
  - cbn [ret].
    destruct (check_installed "torch" st1) as [[have_torch|r] st2]; [|reflexivity].
    destruct have_torch; cbn [negb]; [reflexivity|].
    destruct (print _ st2) as [[[]|r] st3]; [|reflexivity].
    destruct (check_call env _ st3) as [[[]|r] st4]; reflexivity.
  - destruct (print _ st1) as [[[]|r] st2]; [|reflexivity].
    destruct (check_call env _ st2) as [[[]|r] st3]; [|reflexivity].
    destruct (check_installed "torch" st3) as [[have_torch|r] st4]; [|reflexivity].
    destruct have_torch; cbn [negb]; [reflexivity|].
    destruct (print _ st4) as [[[]|r] st5]; [|reflexivity].
    destruct (check_call env _ st5) as [[[]|r] st6]; reflexivity.
Qed.

Lemma ensure_module_run (package announce : string) (cmd : list string) (st : State) :
  ensure_module env package announce cmd st
  = if is_found (find_spec (world st) package)
    then (Return tt,
          mkState (world st)
            (trace st ++ [EvFindSpec package (find_spec (world st) package)]))
    else
      match spawn env cmd (world st) with
      | LaunchFails e =>
          (Raise (Exc e),
           mkState (world st)
             (trace st ++ [EvFindSpec package (find_spec (world st) package);
                           EvStdout (announce +:+ newline);
                           EvCheckCall cmd (NotStarted e)]))
      | Runs _ rc after =>
          (if Z.eqb rc 0 then Return tt
           else Raise (Exc (CalledProcessError rc cmd)),
           mkState after
             (trace st ++ [EvFindSpec package (find_spec (world st) package);
                           EvStdout (announce +:+ newline);
                           EvCheckCall cmd (Exited rc)]))
      end.
Proof.
  unfold ensure_module. unfold bind at 1. rewrite check_installed_run.
  destruct (is_found (find_spec (world st) package)); cbn [negb world trace].
  - reflexivity.
  - unfold bind at 1. rewrite print_run. unfold check_call.
    unfold bind at 1, get_world at 1. unfold bind at 1, emit at 1.
    cbn [world trace].
    destruct (spawn env cmd (world st)) as [e|out rc after]; cbn [outcome_of].
    + unfold raise. now rewrite <- !app_assoc.
    + unfold bind, set_world. cbn [world trace].
      destruct (Z.eqb rc 0); unfold ret, raise; now rewrite <- !app_assoc.
Qed.

Lemma check_decoder_run (st : State) :
  check_decoder env st
  = match which env "ffmpeg" with
    | None =>
        (Raise (SystemExit 1),
         mkState (world st)
           (trace st ++ EvWhich "ffmpeg" None :: decoder_guidance))
    | Some exe =>
        (Return tt,
         mkState (world st) (trace st ++ [EvWhich "ffmpeg" (Some exe)]))
    end.
Proof.
  unfold check_decoder, shutil_which. unfold bind at 1. unfold bind at 1, emit at 1.
  cbn [world trace ret].
  destruct (which env "ffmpeg") as [exe|]; [reflexivity|].
  unfold bind, print, emit, sys_exit, raise. cbn [world trace].
  now rewrite <- !app_assoc.
Qed.

End Stages.

(** Case analysis of a run [H : ensure_dependencies env st = (r, st')]:
    one goal per way through the three stages, with [r] and [st']
    replaced by what that way gives. *)
Ltac ensure_step H :=
  first
    [ rewrite ensure_module_run in H
    | rewrite check_decoder_run in H
    | progress cbn [world trace is_found] in H
    | match type of H with
      | context [find_spec ?w ?p] => destruct (find_spec w p) eqn:?
      end
    | match type of H with
      | context [spawn ?e ?c ?w] => destruct (spawn e c w) eqn:?
      end
    | match type of H with
      | context [Z.eqb ?rc 0] => destruct (Z.eqb rc 0) eqn:?
      end
    | match type of H with
      | context [which ?e ?c] => destruct (which e c) eqn:?
      end ].

Ltac ensure_leaves H :=
  rewrite ensure_dependencies_stages in H; unfold bind in H;
  repeat ensure_step H;
  injection H as <- <-;
  rewrite <- ?app_assoc; cbn [app].

(** C8: the order of [ensure_dependencies].  In every run the checks and
    installations happen in the order of [plan]: the lookup of [demucs],
    its installation exactly when that lookup found nothing; then the lookup
    of [torch], the installation of the CPU build from the PyTorch index
    exactly when that lookup found nothing; and only then the search for
    [ffmpeg].  A run follows the plan to its end whenever every installation
    it starts exits with 0; otherwise it stops part of the way. *)
Theorem ensure_dependencies_order (env : Env) (st : State) :
  steps (since st (snd (ensure_dependencies env st)))
    `prefix_of`
    plan env
      (missing "demucs" (since st (snd (ensure_dependencies env st))))
      (missing "torch" (since st (snd (ensure_dependencies env st))))
  /\ ((forall (cmd : list string) (o : outcome),
          In (EvCheckCall cmd o) (since st (snd (ensure_dependencies env st))) ->
          o = Exited 0) ->
      steps (since st (snd (ensure_dependencies env st)))
      = plan env
          (missing "demucs" (since st (snd (ensure_dependencies env st))))
          (missing "torch" (since st (snd (ensure_dependencies env st))))).
Proof.
  destruct (ensure_dependencies env st) as [r st'] eqn:Hrun.
  ensure_leaves Hrun.
  all: cbn [snd]; rewrite since_app.
  all: split; [eexists; reflexivity|].
  all: try reflexivity.
  all: intros Hok; failed_install Hok.
Qed.

Example ensure_dependencies_installs_both :
  steps (trace (snd (ensure_dependencies (Sample.env [] 0)
                       (Sample.fresh (mkWorld ∅ Sample.no_modules)))))
  = [CheckModule "demucs";
     Install [Sample.python; "-m"; "pip"; "install"; "demucs"];
     CheckModule "torch";
     Install [Sample.python; "-m"; "pip"; "install"; "torch";
              "--index-url"; "https://download.pytorch.org/whl/cpu"];
     CheckPath "ffmpeg"].
Proof. vm_compute. reflexivity. Qed.

Section Prerequisites.

Variable env : Env.

(** [ensure_dependencies] only adds to the trace. *)
Lemma ensure_dependencies_adds (st : State) :
  trace (snd (ensure_dependencies env st))
  = (trace st ++ since st (snd (ensure_dependencies env st)))%list.
Proof.
  destruct (ensure_dependencies env st) as [r st'] eqn:Hrun.
  ensure_leaves Hrun.
  all: cbn [snd trace]; now rewrite since_app.
Qed.

(** [ensure_dependencies] without a decoder on the path never returns: it
    ends by [sys.exit(1)] after the search, unless an installation has ended
    it before. *)
Lemma ensure_dependencies_without_decoder (st : State) :
  which env "ffmpeg" = None ->
  (exists r : raised,
      fst (ensure_dependencies env st) = Raise r /\ raised_status r = 1%Z)
  /\ popens (since st (snd (ensure_dependencies env st))) = []
  /\ mkdirs (since st (snd (ensure_dependencies env st))) = []
  /\ (In (EvWhich "ffmpeg" None) (since st (snd (ensure_dependencies env st)))
      <-> fst (ensure_dependencies env st) = Raise (SystemExit 1))
  /\ ((forall (cmd : list string) (o : outcome),
          In (EvCheckCall cmd o) (since st (snd (ensure_dependencies env st))) ->
          o = Exited 0) ->
      fst (ensure_dependencies env st) = Raise (SystemExit 1)).
Proof.
  intros Hw.
  destruct (ensure_dependencies env st) as [r st'] eqn:Hrun.
  ensure_leaves Hrun.
  all: try congruence.
  all: cbn [fst snd]; rewrite since_app.
  all: split; [eexists; split; reflexivity|].
  all: split; [reflexivity|].
  all: split; [reflexivity|].
  all: split;
    [split;
     [first [reflexivity
            |intros Hin; cbn [In] in Hin; exfalso;
             repeat (destruct Hin as [Hin|Hin]; [discriminate Hin|]);
             exact Hin]
     |first [intros _; in_list | discriminate]]
    |].
  all: first [reflexivity | intros Hok; failed_install Hok].
Qed.

(** An installation that exits with something else than 0 ends
    [ensure_dependencies] on the spot, with [CalledProcessError]; no command
    has been started twice. *)
Lemma ensure_dependencies_failed_install
    (st : State) (cmd : list string) (rc : Z) :
  rc <> 0%Z ->
  In (EvCheckCall cmd (Exited rc)) (since st (snd (ensure_dependencies env st))) ->
  fst (ensure_dependencies env st) = Raise (Exc (CalledProcessError rc cmd))
  /\ last (since st (snd (ensure_dependencies env st)))
     = Some (EvCheckCall cmd (Exited rc))
  /\ List.NoDup (launches (since st (snd (ensure_dependencies env st)))).
Proof.
  intros Hrc.
  destruct (ensure_dependencies env st) as [r st'] eqn:Hrun.
  ensure_leaves Hrun.
  all: cbn [fst snd]; rewrite since_app.
  all: intros Hin; cbn [In] in Hin.
  all: repeat (destruct Hin as [Hin|Hin];
               [first [discriminate Hin | injection Hin as <- <-]|]);
    try (exfalso; exact Hin).
  all: try (exfalso;
            match goal with
            | H : Z.eqb _ 0 = true |- _ => apply Z.eqb_eq in H; congruence
            end).
  all: split; [reflexivity|].
  all: split; [reflexivity|].
  all: cbv [launches omap list_omap launched].
  all: unfold pip_install_demucs, torch_install_cmd;
    repeat (apply List.NoDup_cons; [cbn [In]; intuition discriminate|]);
    apply List.NoDup_nil.
Qed.

(** A recorded failure of the search for [ffmpeg] is what [shutil.which]
    answers. *)
Lemma ensure_dependencies_which_None (st : State) :
  In (EvWhich "ffmpeg" None) (since st (snd (ensure_dependencies env st))) ->
  which env "ffmpeg" = None.
Proof.
  destruct (ensure_dependencies env st) as [r st'] eqn:Hrun.
  ensure_leaves Hrun.
  all: cbn [snd]; rewrite since_app.
  all: try (intros _; reflexivity).
  all: intros Hin; cbn [In] in Hin; exfalso;
    repeat (destruct Hin as [Hin|Hin]; [discriminate Hin|]); exact Hin.
Qed.

(** [separate_song] only adds to the trace: directories made, lines
    printed and [Popen] calls. *)
Lemma separate_song_adds (p : PurePath) (st : State) :
  trace (snd (separate_song env p st))
  = (trace st ++ since st (snd (separate_song env p st)))%list
  /\ forall ev : event,
       In ev (since st (snd (separate_song env p st))) ->
       (exists path, ev = EvMkdir path)
       \/ (exists text, ev = EvStdout text)
       \/ (exists cmd o, ev = EvPopen cmd o).
Proof.
  destruct (output_dir_ready_dec env (world st)) as [Hready|Hnot].
  - rewrite (separate_song_run env p st Hready). cbn [snd trace].
    rewrite since_app. split; [reflexivity|].
    intros ev Hin. apply in_app_iff in Hin. destruct Hin as [Hin|Hin].
    + left. destruct (fs (world st) !! str output_dir);
        [destruct Hin|destruct Hin as [<-|[]]; now eexists].
    + cbn [app In] in Hin.
      destruct Hin as [<-|[<-|Hin]]; [right; left; now eexists
                                     |right; right; now do 2 eexists|].
      right; left. exact (report_prints env _ _ Hin).
  - destruct (separate_song_not_ready env p st Hnot) as [e He].
    rewrite He. cbn [snd].
    unfold since. rewrite drop_all, app_nil_r. split; [reflexivity|].
    intros ev [].
Qed.

End Prerequisites.

(** C4: a run in which [ffmpeg] is not found on the path ends with a
    non-zero status inside [ensure_dependencies] and never gets to the
    separation.  Read on the run: whenever the search for the decoder came
    back empty, [main] is left by [SystemExit(1)], the process status is 1,
    and no [Popen] and no directory was made.  Read on the surroundings:
    without [ffmpeg] on the path [ensure_dependencies] never returns (it is
    left by [SystemExit(1)] after the search, unless an installation has
    ended it before), so every run of [main] ends with a non-zero status and
    without any [Popen]; and when the input exists [main] does not return at
    all, it is left by the very exception that left [ensure_dependencies]. *)
Theorem missing_decoder_is_fatal (env : Env) :
  (forall (argv : option (list string)) (st : State),
      In (EvWhich "ffmpeg" None) (since st (snd (main env argv st))) ->
      fst (main env argv st) = Raise (SystemExit 1)
      /\ exit_status (fst (main env argv st)) = 1%Z
      /\ popens (since st (snd (main env argv st))) = []
      /\ mkdirs (since st (snd (main env argv st))) = [])
  /\ (which env "ffmpeg" = None ->
      (forall st : State,
          (exists r : raised,
              fst (ensure_dependencies env st) = Raise r
              /\ raised_status r <> 0%Z)
          /\ popens (since st (snd (ensure_dependencies env st))) = []
          /\ ((forall (cmd : list string) (o : outcome),
                  In (EvCheckCall cmd o)
                     (since st (snd (ensure_dependencies env st))) ->
                  o = Exited 0) ->
              fst (ensure_dependencies env st) = Raise (SystemExit 1)
              /\ In (EvWhich "ffmpeg" None)
                    (since st (snd (ensure_dependencies env st)))))
      /\ (forall (argv : option (list string)) (st : State),
             exit_status (fst (main env argv st)) <> 0%Z
             /\ popens (since st (snd (main env argv st))) = []
             /\ mkdirs (since st (snd (main env argv st))) = []
             /\ (forall p : string,
                    or_sys_argv env argv !! 1%nat = Some p ->
                    is_Some (fs (world st) !! str (Path p)) ->
                    exists r : raised,
                      fst (ensure_dependencies env
                             (mkState (world st)
                                (trace st ++ [EvExists (str (Path p)) true])))
                      = Raise r
                      /\ main env argv st
                         = (Raise r,
                            snd (ensure_dependencies env
                                   (mkState (world st)
                                      (trace st ++ [EvExists (str (Path p)) true]))))))).
Proof.
  assert (Hstatic :
            which env "ffmpeg" = None ->
            forall (argv : option (list string)) (st : State),
              exit_status (fst (main env argv st)) <> 0%Z
              /\ popens (since st (snd (main env argv st))) = []
              /\ mkdirs (since st (snd (main env argv st))) = []
              /\ (forall p : string,
                     or_sys_argv env argv !! 1%nat = Some p ->
                     is_Some (fs (world st) !! str (Path p)) ->
                     exists r : raised,
                       fst (ensure_dependencies env
                              (mkState (world st)
                                 (trace st ++ [EvExists (str (Path p)) true])))
                       = Raise r
                       /\ main env argv st
                          = (Raise r,
                             snd (ensure_dependencies env
                                    (mkState (world st)
                                       (trace st ++ [EvExists (str (Path p)) true])))))).
  { intros Hw argv st.
    destruct (lt_dec (length (or_sys_argv env argv)) 2) as [Hlen|Hlen].
    { rewrite (main_run_usage env argv st Hlen). cbn [fst snd].
      rewrite since_app. repeat split; try discriminate.
      intros p Harg _. apply lookup_lt_Some in Harg. lia. }
    destruct (or_sys_argv env argv !! 1%nat) as [p|] eqn:Harg;
      [|apply lookup_ge_None in Harg; lia].
    destruct (fs (world st) !! str (Path p)) as [n|] eqn:Hp.
    + assert (Hex : is_Some (fs (world st) !! str (Path p))) by (rewrite Hp; now eexists).
      rewrite (main_run_existing env argv p st Harg Hex).
      set (st1 := mkState (world st) (trace st ++ [EvExists (str (Path p)) true])).
      destruct (ensure_dependencies_without_decoder env st1 Hw)
        as ((r & Hr & Hstatus) & Hpop & Hmk & _).
      pose proof (ensure_dependencies_adds env st1) as Hadds.
      destruct (ensure_dependencies env st1) as [res st2] eqn:Hens.
      cbn [fst snd] in *. subst res.
      rewrite (bind_Raise _ _ st1 st2 r Hens). cbn [fst snd exit_status].
      assert (Hsince : since st st2 = EvExists (str (Path p)) true :: since st1 st2).
      { apply since_eq. rewrite Hadds. unfold st1. cbn [trace].
        now rewrite <- app_assoc. }
      rewrite Hsince, Hstatus.
      split; [discriminate|].
      split; [exact Hpop|]. split; [exact Hmk|].
      intros q Hq _. injection Hq as <-. fold st1. rewrite Hens.
      exists r. split; reflexivity.
    + rewrite (main_run_missing env argv p st Harg Hp). cbn [fst snd].
      rewrite since_app. repeat split; try discriminate.
      intros q Hq [n Hn]. congruence. }
  split.
  - (* read on the run *)
    intros argv st.
    destruct (lt_dec (length (or_sys_argv env argv)) 2) as [Hlen|Hlen].
    { rewrite (main_run_usage env argv st Hlen). cbn [fst snd].
      rewrite since_app. intros [Hin|[]]. discriminate Hin. }
    destruct (or_sys_argv env argv !! 1%nat) as [p|] eqn:Harg;
      [|apply lookup_ge_None in Harg; lia].
    destruct (fs (world st) !! str (Path p)) as [n|] eqn:Hp;
      [|rewrite (main_run_missing env argv p st Harg Hp); cbn [fst snd];
        rewrite since_app; intros [Hin|[Hin|[]]]; discriminate Hin].
    assert (Hex : is_Some (fs (world st) !! str (Path p))) by (rewrite Hp; now eexists).
    intros Hin.
    assert (Hw : which env "ffmpeg" = None).
    { revert Hin. rewrite (main_run_existing env argv p st Harg Hex).
      set (st1 := mkState (world st) (trace st ++ [EvExists (str (Path p)) true])).
      pose proof (ensure_dependencies_which_None env st1) as Hnone.
      pose proof (ensure_dependencies_adds env st1) as Hadds.
      destruct (ensure_dependencies env st1) as [[[]|r] st2] eqn:Hens;
        cbn [fst snd] in *.
      - rewrite (bind_Return _ _ st1 st2 tt Hens).
        destruct (separate_song_adds env (Path p) st2) as [Hadds' Honly].
        unfold bind.
        destruct (separate_song env (Path p) st2) as [res3 st3].
        cbn [fst snd] in *.
        assert (Hsince : since st st3
                         = EvExists (str (Path p)) true :: since st1 st2 ++ since st2 st3).
        { apply since_eq. rewrite Hadds', Hadds. unfold st1. cbn [trace].
          now rewrite <- !app_assoc. }
        intros Hin.
        assert (Hin' : In (EvWhich "ffmpeg" None)
                          (EvExists (str (Path p)) true :: since st1 st2 ++ since st2 st3)).
        { rewrite <- Hsince. now destruct res3 as [[]|r]. }
        destruct Hin' as [Hin'|Hin']; [discriminate Hin'|].
        apply in_app_iff in Hin'. destruct Hin' as [Hin'|Hin'];
          [exact (Hnone Hin')|].
        destruct (Honly _ Hin') as [(path & Heq)|[(text & Heq)|(c & o & Heq)]];
          discriminate Heq.
      - rewrite (bind_Raise _ _ st1 st2 r Hens). cbn [snd].
        assert (Hsince : since st st2 = EvExists (str (Path p)) true :: since st1 st2).
        { apply since_eq. rewrite Hadds. unfold st1. cbn [trace].
          now rewrite <- app_assoc. }
        rewrite Hsince. intros [Hin|Hin]; [discriminate Hin|].
        exact (Hnone Hin). }
    destruct (Hstatic Hw argv st) as (_ & Hpop & Hmk & Hraise).
    destruct (Hraise p Harg Hex) as (r & Hr & Hmain).
    split; [|split; [|split; [exact Hpop|exact Hmk]]].
    + revert Hin. rewrite Hmain. cbn [fst snd].
      set (st1 := mkState (world st) (trace st ++ [EvExists (str (Path p)) true])) in *.
      pose proof (ensure_dependencies_adds env st1) as Hadds.
      destruct (ensure_dependencies_without_decoder env st1 Hw)
        as (_ & _ & _ & Hiff & _).
      intros Hin.
      assert (Hsince : since st (snd (ensure_dependencies env st1))
                       = EvExists (str (Path p)) true
                           :: since st1 (snd (ensure_dependencies env st1))).
      { apply since_eq. rewrite Hadds. unfold st1 at 1. cbn [trace].
        now rewrite <- app_assoc. }
      rewrite Hsince in Hin. destruct Hin as [Hin|Hin]; [discriminate Hin|].
      apply Hiff in Hin. rewrite Hr in Hin. injection Hin as ->. reflexivity.
    + revert Hin. rewrite Hmain. cbn [fst snd exit_status].
      set (st1 := mkState (world st) (trace st ++ [EvExists (str (Path p)) true])) in *.
      pose proof (ensure_dependencies_adds env st1) as Hadds.
      destruct (ensure_dependencies_without_decoder env st1 Hw)
        as (_ & _ & _ & Hiff & _).
      intros Hin.
      assert (Hsince : since st (snd (ensure_dependencies env st1))
                       = EvExists (str (Path p)) true
                           :: since st1 (snd (ensure_dependencies env st1))).
      { apply since_eq. rewrite Hadds. unfold st1 at 1. cbn [trace].
        now rewrite <- app_assoc. }
      rewrite Hsince in Hin. destruct Hin as [Hin|Hin]; [discriminate Hin|].
      apply Hiff in Hin. rewrite Hr in Hin. injection Hin as ->. reflexivity.
  - (* read on the surroundings *)
    intros Hw. split; [|exact (Hstatic Hw)].
    intros st.
    destruct (ensure_dependencies_without_decoder env st Hw)
      as ((r & Hr & Hstatus) & Hpop & _ & Hwhich & Hexit).
    split; [exists r; split; [exact Hr|rewrite Hstatus; discriminate]|].
    split; [exact Hpop|].
    intros Hok. split; [exact (Hexit Hok)|]. apply Hwhich. exact (Hexit Hok).
Qed.

Lemma missing_decoder_is_fatal_witness :
  exit_status
    (fst (main (mkEnv Sample.python ["song_splitter.py"; "song.mp3"]
                  Sample.nothing_on_path (Sample.exits_with 0) Sample.absolute Sample.writable)
            None (Sample.fresh Sample.song_only)))
  <> 0%Z.
Proof.
  apply (proj2 (proj2 (missing_decoder_is_fatal
                         (mkEnv Sample.python ["song_splitter.py"; "song.mp3"]
                            Sample.nothing_on_path (Sample.exits_with 0)
                            Sample.absolute Sample.writable))
                      eq_refl)
           None (Sample.fresh Sample.song_only)).
Defined.

Example missing_decoder_exits_with_1 :
  fst (main (mkEnv Sample.python ["song_splitter.py"; "song.mp3"]
               Sample.nothing_on_path (Sample.exits_with 0) Sample.absolute Sample.writable)
         None (Sample.fresh Sample.song_only))
  = Raise (SystemExit 1).
Proof. vm_compute. reflexivity. Qed.

(** C6: a failed installation is not caught.  In a run of
    [ensure_dependencies] in which an installation exits with a status other
    than 0, [ensure_dependencies] is left by the [CalledProcessError] of that
    command, the failed call is the last thing that happens, and no command
    has been started twice.  The same holds of [main]: it is left by that
    exception, so the process ends with status 1. *)
Theorem install_failure_propagates (env : Env) :
  (forall (st : State) (cmd : list string) (rc : Z),
      rc <> 0%Z ->
      In (EvCheckCall cmd (Exited rc))
         (since st (snd (ensure_dependencies env st))) ->
      fst (ensure_dependencies env st) = Raise (Exc (CalledProcessError rc cmd))
      /\ last (since st (snd (ensure_dependencies env st)))
         = Some (EvCheckCall cmd (Exited rc))
      /\ List.NoDup (launches (since st (snd (ensure_dependencies env st)))))
  /\ (forall (argv : option (list string)) (st : State)
             (cmd : list string) (rc : Z),
         rc <> 0%Z ->
         In (EvCheckCall cmd (Exited rc)) (since st (snd (main env argv st))) ->
         fst (main env argv st) = Raise (Exc (CalledProcessError rc cmd))
         /\ exit_status (fst (main env argv st)) = 1%Z
         /\ last (since st (snd (main env argv st)))
            = Some (EvCheckCall cmd (Exited rc))
         /\ List.NoDup (launches (since st (snd (main env argv st))))).
Proof.
  split; [exact (ensure_dependencies_failed_install env)|].
  intros argv st cmd rc Hrc.
  destruct (lt_dec (length (or_sys_argv env argv)) 2) as [Hlen|Hlen].
  { rewrite (main_run_usage env argv st Hlen). cbn [fst snd].
    rewrite since_app. intros [Hin|[]]. discriminate Hin. }
  destruct (or_sys_argv env argv !! 1%nat) as [p|] eqn:Harg;
    [|apply lookup_ge_None in Harg; lia].
  destruct (fs (world st) !! str (Path p)) as [n|] eqn:Hp.
  - assert (Hex : is_Some (fs (world st) !! str (Path p))) by (rewrite Hp; now eexists).
    rewrite (main_run_existing env argv p st Harg Hex).
    set (st1 := mkState (world st) (trace st ++ [EvExists (str (Path p)) true])).
    pose proof (ensure_dependencies_failed_install env st1 cmd rc Hrc) as Hfail.
    pose proof (ensure_dependencies_adds env st1) as Hadds.
    destruct (ensure_dependencies env st1) as [[[]|r] st2] eqn:Hens;
      cbn [fst snd] in *.
    + (* the prerequisites were fine: nothing afterwards is a check_call *)
      rewrite (bind_Return _ _ st1 st2 tt Hens).
      destruct (separate_song_adds env (Path p) st2) as [Hadds' Hnone].
      unfold bind.
      destruct (separate_song env (Path p) st2) as [res3 st3].
      cbn [fst snd] in *.
      assert (Hsince : since st st3
                       = EvExists (str (Path p)) true :: since st1 st2 ++ since st2 st3).
      { apply since_eq. rewrite Hadds', Hadds. unfold st1. cbn [trace].
        now rewrite <- !app_assoc. }
      intros Hin.
      assert (Hin' : In (EvCheckCall cmd (Exited rc))
                        (EvExists (str (Path p)) true :: since st1 st2 ++ since st2 st3)).
      { rewrite <- Hsince. now destruct res3 as [[]|r]. }
      exfalso. destruct Hin' as [Hin'|Hin']; [discriminate Hin'|].
      apply in_app_iff in Hin'. destruct Hin' as [Hin'|Hin'].
      * destruct (Hfail Hin') as [Habs _]. discriminate Habs.
      * destruct (Hnone _ Hin') as [(path & Heq)|[(text & Heq)|(c & o & Heq)]];
          discriminate Heq.
    + (* the prerequisites raised *)
      rewrite (bind_Raise _ _ st1 st2 r Hens). cbn [fst snd exit_status].
      assert (Hsince : since st st2 = EvExists (str (Path p)) true :: since st1 st2).
      { apply since_eq. rewrite Hadds. unfold st1. cbn [trace].
        now rewrite <- app_assoc. }
      rewrite Hsince. intros [Hin|Hin]; [discriminate Hin|].
      destruct (Hfail Hin) as (Hr & Hlast & Hnodup).
      injection Hr as ->. split; [reflexivity|]. split; [reflexivity|].
      split; [|exact Hnodup].
      rewrite last_cons, Hlast. reflexivity.
  - rewrite (main_run_missing env argv p st Harg Hp). cbn [fst snd].
    rewrite since_app. intros [Hin|[Hin|[]]]; discriminate Hin.
Qed.

Lemma install_failure_propagates_witness :
  fst (main (Sample.env ["song_splitter.py"; "song.mp3"] 1) None
         (Sample.fresh (mkWorld Sample.song_dir Sample.no_modules)))
  = Raise (Exc (CalledProcessError 1
                  ["/usr/bin/python3"; "-m"; "pip"; "install"; "demucs"])).
Proof.
  apply (proj2 (install_failure_propagates
                  (Sample.env ["song_splitter.py"; "song.mp3"] 1))
               None
               (Sample.fresh (mkWorld Sample.song_dir Sample.no_modules))
               ["/usr/bin/python3"; "-m"; "pip"; "install"; "demucs"] 1%Z).
  - discriminate.
  - vm_compute. right. right. right. left. reflexivity.
Defined.

Lemma ensure_dependencies_order_witness :
  steps (since (Sample.fresh (mkWorld ∅ Sample.no_modules))
           (snd (ensure_dependencies (Sample.env [] 0)
                   (Sample.fresh (mkWorld ∅ Sample.no_modules)))))
  = [CheckModule "demucs";
     Install ["/usr/bin/python3"; "-m"; "pip"; "install"; "demucs"];
     CheckModule "torch";
     Install ["/usr/bin/python3"; "-m"; "pip"; "install"; "torch";
              "--index-url"; "https://download.pytorch.org/whl/cpu"];
     CheckPath "ffmpeg"].
Proof.
  apply (proj2 (ensure_dependencies_order (Sample.env [] 0)
                  (Sample.fresh (mkWorld ∅ Sample.no_modules)))).
  intros cmd o Hin. vm_compute in Hin.
  repeat (destruct Hin as [Hin|Hin];
          [first [discriminate Hin | injection Hin as _ <-; reflexivity]|]).
  destruct Hin.
Defined.

(** ** Further properties of the script *)

Section Whole.

Variable env : Env.


(** [ensure_dependencies] starts no [Popen] and makes no directory. *)
Lemma ensure_dependencies_quiet (st : State) :
  popens (since st (snd (ensure_dependencies env st))) = []
  /\ mkdirs (since st (snd (ensure_dependencies env st))) = [].
Proof.
  destruct (ensure_dependencies env st) as [r st'] eqn:Hrun.
  ensure_leaves Hrun.
  all: cbn [snd]; rewrite since_app; split; reflexivity.
Qed.

(** Whatever leaves [ensure_dependencies] ends the process with status 1. *)
Lemma ensure_dependencies_raised_status (st : State) (r : raised) :
  fst (ensure_dependencies env st) = Raise r -> raised_status r = 1%Z.
Proof.
  destruct (ensure_dependencies env st) as [res st'] eqn:Hrun.
  ensure_leaves Hrun.
  all: cbn [fst]; intros Heq; first [discriminate Heq | injection Heq as <-];
    reflexivity.
Qed.

(** The commands [ensure_dependencies] starts: the two installations, each
    at most once, in that order. *)
Lemma ensure_dependencies_launches (st : State) :
  launches (since st (snd (ensure_dependencies env st)))
    `sublist_of` [pip_install_demucs env; torch_install_cmd env].
Proof.
  destruct (ensure_dependencies env st) as [r st'] eqn:Hrun.
  ensure_leaves Hrun.
  all: cbn [snd]; rewrite since_app; cbv [launches omap list_omap launched].
  all: repeat (first [apply sublist_nil | apply sublist_skip | apply sublist_cons]).
Qed.

(** The ways through [main]. *)
Lemma main_cases (argv : option (list string)) (st : State) :
  ((length (or_sys_argv env argv) < 2)%nat
   /\ main env argv st
      = (Return 1%Z, mkState (world st) (trace st ++ [EvStdout usage_text])))
  \/ (exists p : string,
         or_sys_argv env argv !! 1%nat = Some p
         /\ fs (world st) !! str (Path p) = None
         /\ main env argv st
            = (Return 1%Z,
               mkState (world st)
                 (trace st ++ [EvExists (str (Path p)) false;
                           EvStdout (not_found_text (str (Path p)))])))
  \/ (exists (p : string) (r : raised),
         or_sys_argv env argv !! 1%nat = Some p
         /\ is_Some (fs (world st) !! str (Path p))
         /\ fst (ensure_dependencies env (input_found st p)) = Raise r
         /\ main env argv st
            = (Raise r, snd (ensure_dependencies env (input_found st p)))
         /\ since st (snd (main env argv st))
            = EvExists (str (Path p)) true
                :: since (input_found st p)
                     (snd (ensure_dependencies env (input_found st p))))
  \/ (exists p : string,
         or_sys_argv env argv !! 1%nat = Some p
         /\ is_Some (fs (world st) !! str (Path p))
         /\ fst (ensure_dependencies env (input_found st p)) = Return tt
         /\ main env argv st
            = (match fst (separate_song env (Path p)
                            (snd (ensure_dependencies env (input_found st p))))
               with
               | Return _ => Return 0%Z
               | Raise r => Raise r
               end,
               snd (separate_song env (Path p)
                      (snd (ensure_dependencies env (input_found st p)))))
         /\ since st (snd (main env argv st))
            = EvExists (str (Path p)) true
                :: since (input_found st p)
                     (snd (ensure_dependencies env (input_found st p)))
                ++ since (snd (ensure_dependencies env (input_found st p)))
                     (snd (separate_song env (Path p)
                             (snd (ensure_dependencies env (input_found st p)))))).
Proof.
  destruct (lt_dec (length (or_sys_argv env argv)) 2) as [Hlen|Hlen].
  { left. split; [exact Hlen|]. now apply main_run_usage. }
  destruct (or_sys_argv env argv !! 1%nat) as [p|] eqn:Harg;
    [|apply lookup_ge_None in Harg; lia].
  destruct (fs (world st) !! str (Path p)) as [n|] eqn:Hp.
  2:{ right; left. exists p. repeat split; [exact Hp|].
      now apply main_run_missing. }
  assert (Hex : is_Some (fs (world st) !! str (Path p))) by (rewrite Hp; now eexists).
  right; right.
  rewrite (main_run_existing env argv p st Harg Hex).
  fold (input_found st p).
  pose proof (ensure_dependencies_adds env (input_found st p)) as Hadds.
  destruct (ensure_dependencies env (input_found st p)) as [[[]|r] st2] eqn:Hens;
    cbn [fst snd] in *.
  - right. exists p. rewrite !Hens. cbn [fst snd].
    rewrite (bind_Return _ _ (input_found st p) st2 tt Hens).
    destruct (separate_song_adds env (Path p) st2) as [Hadds' _].
    unfold bind.
    destruct (separate_song env (Path p) st2) as [res3 st3].
    cbn [fst snd] in *.
    assert (Hsince : since st st3
                     = EvExists (str (Path p)) true
                         :: since (input_found st p) st2 ++ since st2 st3).
    { apply since_eq. rewrite Hadds', Hadds. unfold input_found. cbn [trace].
      now rewrite <- !app_assoc. }
    split; [reflexivity|]. split; [exact Hex|]. split; [reflexivity|].
    destruct res3 as [[]|r]; (split; [reflexivity|exact Hsince]).
  - left. exists p, r. rewrite !Hens. cbn [fst snd].
    rewrite (bind_Raise _ _ (input_found st p) st2 r Hens). cbn [snd].
    split; [reflexivity|]. split; [exact Hex|]. split; [reflexivity|].
    split; [reflexivity|].
    apply since_eq. rewrite Hadds. unfold input_found. cbn [trace].
    now rewrite <- app_assoc.
Qed.

End Whole.

(** X1: [install_package] does two things, in this order and whatever
    the outcome: it prints its announcement, then it starts one command, pip
    for that package.  It returns normally exactly when that command ran and
    exited with 0, and it leaves the world as the command left it. *)
Theorem install_package_outcome (env : Env) (package : string) (st : State) :
  since st (snd (install_package env package st))
  = [EvStdout (("📦 Installing " +:+ package +:+ " ...") +:+ newline);
     EvCheckCall [sys_executable env; "-m"; "pip"; "install"; package]
       (outcome_of (spawn env [sys_executable env; "-m"; "pip"; "install"; package]
                      (world st)))]
  /\ (fst (install_package env package st) = Return tt
      <-> outcome_of (spawn env [sys_executable env; "-m"; "pip"; "install"; package]
                        (world st))
          = Exited 0)
  /\ world (snd (install_package env package st))
     = left_by (spawn env [sys_executable env; "-m"; "pip"; "install"; package]
                  (world st))
               (world st).
Proof.
  unfold install_package, check_call, print, bind, get_world, emit, set_world.
  cbn [world trace].
  destruct (spawn env [sys_executable env; "-m"; "pip"; "install"; package]
              (world st)) as [e|out rc after]; cbn [outcome_of left_by].
  - unfold raise. cbn [fst snd world]. rewrite <- !app_assoc, since_app.
    split; [reflexivity|]. split; [split; intros H; discriminate H|].
    reflexivity.
  - destruct (Z.eqb rc 0) eqn:Hrc; unfold ret, raise; cbn [fst snd world trace];
      rewrite <- ?app_assoc, since_app;
      (split; [reflexivity|]); (split; [|reflexivity]); split; intros H.
    + apply Z.eqb_eq in Hrc. now subst rc.
    + reflexivity.
    + discriminate H.
    + injection H as ->. discriminate Hrc.
Qed.



(** X3: [main] depends on a non-empty argument list through its second
    element only.  Two non-empty lists that agree on it (or both lack it)
    make [main] do the same, whatever the program name, however many further
    arguments follow, and whatever the arguments of the process are. *)
Theorem main_reads_second_argument_only
    (env : Env) (other_argv argv1 argv2 : list string) (st : State) :
  argv1 <> [] ->
  argv2 <> [] ->
  argv1 !! 1%nat = argv2 !! 1%nat ->
  main env (Some argv1) st
  = main (mkEnv (sys_executable env) other_argv (which env) (spawn env)
            (resolve env) (mkdir_error env))
         (Some argv2) st.
Proof.
  intros Hne1 Hne2 Hsame.
  destruct argv1 as [|a1 [|p1 rest1]]; [congruence| |];
    destruct argv2 as [|a2 [|p2 rest2]]; try congruence;
    cbn in Hsame; try discriminate Hsame.
  - reflexivity.
  - injection Hsame as ->. reflexivity.
Qed.

Lemma main_reads_second_argument_only_witness :
  main (Sample.env [] 0) (Some ["song_splitter.py"; "song.mp3"])
       (Sample.fresh Sample.song_only)
  = main (mkEnv Sample.python ["unrelated"] Sample.on_path (Sample.exits_with 0)
            Sample.absolute Sample.writable)
         (Some ["x"; "song.mp3"; "--two-stems"; "vocals"])
         (Sample.fresh Sample.song_only).
Proof.
  apply (main_reads_second_argument_only (Sample.env [] 0) ["unrelated"]
           ["song_splitter.py"; "song.mp3"]
           ["x"; "song.mp3"; "--two-stems"; "vocals"]
           (Sample.fresh Sample.song_only)).
  - discriminate.
  - discriminate.
  - reflexivity.
Defined.

(** X4: when [ensure_dependencies] returns.  It returns normally exactly
    when [ffmpeg] is on the path and every installation it started ran and
    exited with 0. *)
Theorem ensure_dependencies_returns_iff (env : Env) (st : State) :
  fst (ensure_dependencies env st) = Return tt
  <-> (which env "ffmpeg" <> None
       /\ forall (cmd : list string) (o : outcome),
            In (EvCheckCall cmd o) (since st (snd (ensure_dependencies env st))) ->
            o = Exited 0).
Proof.
  destruct (ensure_dependencies env st) as [r st'] eqn:Hrun.
  ensure_leaves Hrun.
  all: cbn [fst snd]; rewrite since_app.
  all: split;
    [first
       [discriminate
       |intros _; split;
        [discriminate
        |intros cmd o Hin; cbn [In] in Hin;
         repeat (destruct Hin as [Hin|Hin];
                 [first [discriminate Hin | injection Hin as <- <-]|]);
         try (exfalso; exact Hin);
         repeat match goal with
                | H : Z.eqb _ 0 = true |- _ => apply Z.eqb_eq in H; subst
                end;
         reflexivity]]
    |intros [Hpath Hok];
     first [reflexivity
           |failed_install Hok
           |exfalso; apply Hpath; reflexivity]].
Qed.

Lemma ensure_dependencies_returns_iff_witness :
  fst (ensure_dependencies (Sample.env [] 0)
         (Sample.fresh (mkWorld ∅ Sample.no_modules)))
  = Return tt.
Proof.
  apply (proj2 (ensure_dependencies_returns_iff (Sample.env [] 0)
                  (Sample.fresh (mkWorld ∅ Sample.no_modules)))).
  split.
  - discriminate.
  - intros cmd o Hin. vm_compute in Hin.
    repeat (destruct Hin as [Hin|Hin];
            [first [discriminate Hin | injection Hin as _ <-; reflexivity]|]).
    destruct Hin.
Defined.

(** X5: the lookup of [torch] is made in the world the installation of
    [demucs] has left.  When [demucs] is missing and its installation exits
    with 0, then: if [torch] is importable afterwards, no second installation
    is started, even if [torch] was missing before; if it is not, the
    installation of [torch] is started next, in that same world. *)
Theorem torch_lookup_follows_demucs_install
    (env : Env) (st : State) (out : list string) (after : World) :
  find_spec (world st) "demucs" <> SpecFound ->
  spawn env (pip_install_demucs env) (world st) = Runs out 0 after ->
  In (EvFindSpec "torch" (find_spec after "torch"))
     (since st (snd (ensure_dependencies env st)))
  /\ (find_spec after "torch" = SpecFound ->
      launches (since st (snd (ensure_dependencies env st)))
      = [pip_install_demucs env])
  /\ (find_spec after "torch" <> SpecFound ->
      launches (since st (snd (ensure_dependencies env st)))
      = [pip_install_demucs env; torch_install_cmd env]
      /\ In (EvCheckCall (torch_install_cmd env)
               (outcome_of (spawn env (torch_install_cmd env) after)))
            (since st (snd (ensure_dependencies env st)))).
Proof.
  intros Hmissing Hpip.
  destruct (ensure_dependencies env st) as [r st'] eqn:Hrun.
  ensure_leaves Hrun.
  all: try congruence.
  all: injection Hpip as -> -> ->.
  all: try match goal with
           | H : Z.eqb 0 0 = false |- _ => discriminate H
           end.
  all: cbn [snd]; rewrite since_app.
  all: repeat match goal with
              | H : spawn _ _ _ = _ |- _ => rewrite H
              | H : find_spec _ _ = _ |- _ => rewrite H
              end;
    cbn [outcome_of].
  all: split; [in_list|].
  all: split; intros Htorch; first [discriminate Htorch | congruence | idtac].
  all: try reflexivity.
  all: split; [reflexivity|in_list].
Qed.

Lemma torch_lookup_follows_demucs_install_witness :
  launches
    (since (Sample.fresh (mkWorld ∅ Sample.no_modules))
       (snd (ensure_dependencies
               (mkEnv Sample.python [] Sample.on_path
                  (fun cmd w => Runs [] 0 (mkWorld (fs w) Sample.all_modules))
                  Sample.absolute Sample.writable)
               (Sample.fresh (mkWorld ∅ Sample.no_modules)))))
  = [["/usr/bin/python3"; "-m"; "pip"; "install"; "demucs"]].
Proof.
  destruct (torch_lookup_follows_demucs_install
              (mkEnv Sample.python [] Sample.on_path
                 (fun cmd w => Runs [] 0 (mkWorld (fs w) Sample.all_modules))
                 Sample.absolute Sample.writable)
              (Sample.fresh (mkWorld ∅ Sample.no_modules))
              [] (mkWorld ∅ Sample.all_modules))
    as (_ & Hone & _).
  - discriminate.
  - reflexivity.
  - apply Hone. reflexivity.
Defined.

(** X6: an installer that cannot be started.  When a [check_call] of
    [ensure_dependencies] fails to start its command, the exception of the
    launch is not caught: it leaves [ensure_dependencies], and [main] with it,
    the failed call is the last thing that happens, and the process ends
    with status 1. *)
Theorem install_launch_error_propagates (env : Env) :
  (forall (st : State) (cmd : list string) (e : exception),
      In (EvCheckCall cmd (NotStarted e))
         (since st (snd (ensure_dependencies env st))) ->
      fst (ensure_dependencies env st) = Raise (Exc e)
      /\ last (since st (snd (ensure_dependencies env st)))
         = Some (EvCheckCall cmd (NotStarted e)))
  /\ (forall (argv : option (list string)) (st : State)
             (cmd : list string) (e : exception),
         In (EvCheckCall cmd (NotStarted e)) (since st (snd (main env argv st))) ->
         fst (main env argv st) = Raise (Exc e)
         /\ exit_status (fst (main env argv st)) = 1%Z
         /\ last (since st (snd (main env argv st)))
            = Some (EvCheckCall cmd (NotStarted e))).
Proof.
  assert (Hensure :
            forall (st : State) (cmd : list string) (e : exception),
              In (EvCheckCall cmd (NotStarted e))
                 (since st (snd (ensure_dependencies env st))) ->
              fst (ensure_dependencies env st) = Raise (Exc e)
              /\ last (since st (snd (ensure_dependencies env st)))
                 = Some (EvCheckCall cmd (NotStarted e))).
  { intros st cmd e.
    destruct (ensure_dependencies env st) as [r st'] eqn:Hrun.
    ensure_leaves Hrun.
    all: cbn [fst snd]; rewrite since_app.
    all: intros Hin; cbn [In] in Hin.
    all: repeat (destruct Hin as [Hin|Hin];
                 [first [discriminate Hin | injection Hin as <- <-]|]);
      try (exfalso; exact Hin).
    all: split; reflexivity. }
  split; [exact Hensure|].
  intros argv st cmd e Hin.
  destruct (main_cases env argv st)
    as [(_ & Hmain)|[(p & _ & _ & Hmain)
                    |[(p & r & _ & _ & Hr & Hmain & Hsince)
                     |(p & _ & _ & Hret & Hmain & Hsince)]]].
  - exfalso. rewrite Hmain in Hin. cbn [snd] in Hin. rewrite since_app in Hin.
    destruct Hin as [Hin|[]]. discriminate Hin.
  - exfalso. rewrite Hmain in Hin. cbn [snd] in Hin. rewrite since_app in Hin.
    destruct Hin as [Hin|[Hin|[]]]; discriminate Hin.
  - rewrite Hsince in *. destruct Hin as [Hin|Hin]; [discriminate Hin|].
    destruct (Hensure _ _ _ Hin) as [Hraise Hlast].
    rewrite Hr in Hraise. injection Hraise as ->.
    rewrite Hmain. cbn [fst exit_status raised_status].
    split; [reflexivity|]. split; [reflexivity|].
    rewrite last_cons, Hlast. reflexivity.
  - exfalso. rewrite Hsince in Hin. destruct Hin as [Hin|Hin]; [discriminate Hin|].
    apply in_app_iff in Hin. destruct Hin as [Hin|Hin].
    + destruct (Hensure _ _ _ Hin) as [Hraise _].
      rewrite Hret in Hraise. discriminate Hraise.
    + destruct (proj2 (separate_song_adds env (Path p) _) _ Hin)
        as [(path & Heq)|[(text & Heq)|(c & o & Heq)]];
        discriminate Heq.
Qed.

Lemma install_launch_error_propagates_witness :
  fst (main (mkEnv Sample.python ["song_splitter.py"; "song.mp3"]
               Sample.on_path Sample.no_interpreter Sample.absolute Sample.writable)
         None
         (Sample.fresh (mkWorld Sample.song_dir Sample.no_modules)))
  = Raise (Exc (FileNotFoundError
                  "[Errno 2] No such file or directory: 'python3'")).
Proof.
  apply (proj2 (install_launch_error_propagates
                  (mkEnv Sample.python ["song_splitter.py"; "song.mp3"]
                     Sample.on_path Sample.no_interpreter Sample.absolute Sample.writable))
               None
               (Sample.fresh (mkWorld Sample.song_dir Sample.no_modules))
               ["/usr/bin/python3"; "-m"; "pip"; "install"; "demucs"]).
  vm_compute. right. right. right. left. reflexivity.
Defined.

Lemma popens_app (a b : list event) : popens (a ++ b) = (popens a ++ popens b)%list.
Proof. apply omap_app. Qed.

Lemma launches_app (a b : list event) :
  launches (a ++ b) = (launches a ++ launches b)%list.
Proof. apply omap_app. Qed.

Lemma mkdirs_app (a b : list event) : mkdirs (a ++ b) = (mkdirs a ++ mkdirs b)%list.
Proof. apply omap_app. Qed.

Lemma since_refl (st : State) : since st st = [].
Proof. unfold since. apply drop_all. Qed.

(** X7: the status the process ends with.  Every run of [main] ends the
    process with status 0 or 1, and with 0 exactly when the run got as far as
    calling [Popen] for the separation: once that call has been made, be it
    that the child cannot be started or that it fails, nothing turns the
    status into a failure; before it, every way out is a failure.  The script
    run as a program is [main] on the arguments of the process. *)
Theorem exit_status_tells_whether_demucs_was_called
    (env : Env) (argv : option (list string)) (st : State) :
  (exit_status (fst (main env argv st)) = 0%Z
   \/ exit_status (fst (main env argv st)) = 1%Z)
  /\ (exit_status (fst (main env argv st)) = 0%Z
      <-> popens (since st (snd (main env argv st))) <> [])
  /\ script env st = (exit_status (fst (main env None st)), snd (main env None st)).
Proof.
  assert (Hscript : script env st
                    = (exit_status (fst (main env None st)),
                       snd (main env None st))).
  { unfold script. now destruct (main env None st). }
  cut ((exit_status (fst (main env argv st)) = 1%Z
        /\ popens (since st (snd (main env argv st))) = [])
       \/ (exit_status (fst (main env argv st)) = 0%Z
           /\ popens (since st (snd (main env argv st))) <> [])).
  { intros [[Hone Hnil]|[Hzero Hsome]].
    - split; [now right|]. split; [|exact Hscript].
      rewrite Hone, Hnil. split; [discriminate|intros H; now destruct H].
    - split; [now left|]. split; [|exact Hscript].
      split; [intros _; exact Hsome|intros _; exact Hzero]. }
  destruct (main_cases env argv st)
    as [(_ & Hmain)|[(p & _ & _ & Hmain)
                    |[(p & r & _ & _ & Hr & Hmain & Hsince)
                     |(p & _ & _ & Hret & Hmain & Hsince)]]].
  - left. rewrite Hmain. cbn [fst snd]. rewrite since_app. now split.
  - left. rewrite Hmain. cbn [fst snd]. rewrite since_app. now split.
  - left. rewrite Hsince, Hmain. cbn [fst exit_status].
    split; [exact (ensure_dependencies_raised_status env _ r Hr)|].
    exact (proj1 (ensure_dependencies_quiet env (input_found st p))).
  - rewrite Hsince, Hmain. cbn [fst].
    change (EvExists (str (Path p)) true :: ?l) with ([EvExists (str (Path p)) true] ++ l)%list.
    rewrite !popens_app.
    rewrite (proj1 (ensure_dependencies_quiet env (input_found st p))).
    cbn [popens omap list_omap popened app].
    set (st2 := snd (ensure_dependencies env (input_found st p))).
    destruct (output_dir_ready_dec env (world st2)) as [Hready|Hnot].
    + right. rewrite (separate_song_run env (Path p) st2 Hready).
      cbn [fst snd exit_status]. rewrite since_app.
      split; [reflexivity|]. rewrite !popens_app.
      cbn [popens omap list_omap popened app].
      destruct (popens _); discriminate.
    + left. destruct (separate_song_not_ready env (Path p) st2 Hnot) as [e He].
      rewrite He.
      cbn [fst snd exit_status raised_status]. rewrite since_refl. now split.
Qed.

(** The commands and directories of [separate_song]. *)
Lemma separate_song_launches (env : Env) (p : PurePath) (st : State) :
  launches (since st (snd (separate_song env p st)))
    `sublist_of` [demucs_cmd env p]
  /\ mkdirs (since st (snd (separate_song env p st)))
       `sublist_of` ["separated_stems"].
Proof.
  destruct (output_dir_ready_dec env (world st)) as [Hready|Hnot].
  - rewrite (separate_song_run env p st Hready). cbn [snd].
    rewrite since_app.
    rewrite !launches_app, !mkdirs_app, launches_report, mkdirs_report.
    destruct (fs (world st) !! str output_dir); split;
      first [reflexivity | apply sublist_nil_l].
  - destruct (separate_song_not_ready env p st Hnot) as [e He].
    rewrite He. cbn [snd].
    rewrite since_refl. split; apply sublist_nil_l.
Qed.

(** X8: what [main] starts and makes, at most.  The commands of a run
    are, in this order and each at most once, the installation of [demucs],
    the installation of [torch] and the separation of the given input, named
    as pathlib prints it; no other command is ever started, and none at all
    when there is no path argument.  The only directory a run can make is
    [separated_stems]. *)
Theorem main_starts_only_its_three_commands
    (env : Env) (argv : option (list string)) (st : State) :
  (forall p : string,
      or_sys_argv env argv !! 1%nat = Some p ->
      launches (since st (snd (main env argv st)))
        `sublist_of`
        [[sys_executable env; "-m"; "pip"; "install"; "demucs"];
         [sys_executable env; "-m"; "pip"; "install"; "torch";
          "--index-url"; "https://download.pytorch.org/whl/cpu"];
         [sys_executable env; "-m"; "demucs"; "-n"; "htdemucs";
          "-o"; "separated_stems"; str (Path p)]])
  /\ (or_sys_argv env argv !! 1%nat = None ->
      launches (since st (snd (main env argv st))) = [])
  /\ mkdirs (since st (snd (main env argv st))) `sublist_of` ["separated_stems"].
Proof.
  destruct (main_cases env argv st)
    as [(Hlen & Hmain)|[(p & Harg & _ & Hmain)
                       |[(p & r & Harg & _ & Hr & Hmain & Hsince)
                        |(p & Harg & _ & Hret & Hmain & Hsince)]]].
  - rewrite Hmain. cbn [snd]. rewrite since_app.
    split; [intros p _; apply sublist_nil_l|].
    split; [reflexivity|apply sublist_nil_l].
  - rewrite Hmain. cbn [snd]. rewrite since_app.
    split; [intros q _; apply sublist_nil_l|].
    split; [reflexivity|apply sublist_nil_l].
  - rewrite Hsince.
    change (EvExists (str (Path p)) true :: ?l) with ([EvExists (str (Path p)) true] ++ l)%list.
    rewrite launches_app, mkdirs_app. cbn [launches mkdirs omap list_omap
                                           launched created app].
    rewrite (proj2 (ensure_dependencies_quiet env (input_found st p))).
    split; [|split; [congruence|apply sublist_nil_l]].
    intros q _.
    apply (sublist_inserts_r [_] _ [_; _]).
    exact (ensure_dependencies_launches env (input_found st p)).
  - rewrite Hsince.
    change (EvExists (str (Path p)) true :: ?l) with ([EvExists (str (Path p)) true] ++ l)%list.
    rewrite !launches_app, !mkdirs_app.
    cbn [launches mkdirs omap list_omap launched created app].
    rewrite (proj2 (ensure_dependencies_quiet env (input_found st p))).
    destruct (separate_song_launches env (Path p)
                (snd (ensure_dependencies env (input_found st p))))
      as [Hlaunch Hmk].
    split; [|split; [congruence|exact Hmk]].
    intros q Hq. rewrite Harg in Hq. injection Hq as <-.
    apply (sublist_app _ [_; _] _ [_]);
      [exact (ensure_dependencies_launches env (input_found st p))
      |exact Hlaunch].
Qed.

Lemma main_starts_only_its_three_commands_witness :
  launches
    (since (Sample.fresh (mkWorld Sample.song_dir Sample.no_modules))
       (snd (main (Sample.env ["song_splitter.py"; "song.mp3"] 0) None
               (Sample.fresh (mkWorld Sample.song_dir Sample.no_modules)))))
    `sublist_of`
    [["/usr/bin/python3"; "-m"; "pip"; "install"; "demucs"];
     ["/usr/bin/python3"; "-m"; "pip"; "install"; "torch";
      "--index-url"; "https://download.pytorch.org/whl/cpu"];
     ["/usr/bin/python3"; "-m"; "demucs"; "-n"; "htdemucs";
      "-o"; "separated_stems"; "song.mp3"]].
Proof.
  apply (proj1 (main_starts_only_its_three_commands
                  (Sample.env ["song_splitter.py"; "song.mp3"] 0) None
                  (Sample.fresh (mkWorld Sample.song_dir
                                   Sample.no_modules)))
               "song.mp3").
  reflexivity.
Defined.

(** X9: the decoder is looked for last.  When a module is missing,
    [ensure_dependencies] starts its installation before it looks for
    [ffmpeg]; so without [ffmpeg] on the path a run that is bound to end in
    failure still starts an installer first. *)
Theorem installs_come_before_decoder_check (env : Env) (st : State) :
  which env "ffmpeg" = None ->
  find_spec (world st) "demucs" <> SpecFound
  \/ find_spec (world st) "torch" <> SpecFound ->
  (exists r : raised, fst (ensure_dependencies env st) = Raise r)
  /\ launches (since st (snd (ensure_dependencies env st))) <> []
  /\ (find_spec (world st) "demucs" <> SpecFound ->
      head (launches (since st (snd (ensure_dependencies env st))))
      = Some [sys_executable env; "-m"; "pip"; "install"; "demucs"]).
Proof.
  intros Hw Hmissing.
  destruct (ensure_dependencies env st) as [r st'] eqn:Hrun.
  ensure_leaves Hrun.
  all: try congruence.
  all: try (exfalso; destruct Hmissing as [H|H]; congruence).
  all: cbn [fst snd]; rewrite since_app.
  all: split; [now eexists|].
  all: split; [cbv [launches omap list_omap launched]; discriminate|].
  all: intros Hd; first [reflexivity | congruence].
Qed.

Lemma installs_come_before_decoder_check_witness :
  launches
    (since (Sample.fresh (mkWorld ∅ Sample.no_modules))
       (snd (ensure_dependencies
               (mkEnv Sample.python [] Sample.nothing_on_path
                  (Sample.exits_with 0) Sample.absolute Sample.writable)
               (Sample.fresh (mkWorld ∅ Sample.no_modules)))))
  <> [].
Proof.
  apply (installs_come_before_decoder_check
           (mkEnv Sample.python [] Sample.nothing_on_path
              (Sample.exits_with 0) Sample.absolute Sample.writable)
           (Sample.fresh (mkWorld ∅ Sample.no_modules))).
  - reflexivity.
  - left. discriminate.
Defined.

(** [ensure_dependencies] changes the world through its installers only. *)
Lemma ensure_dependencies_frame (env : Env) (st : State) :
  launches (since st (snd (ensure_dependencies env st))) = [] ->
  world (snd (ensure_dependencies env st)) = world st.
Proof.
  destruct (ensure_dependencies env st) as [r st'] eqn:Hrun.
  ensure_leaves Hrun.
  all: cbn [snd world]; rewrite since_app.
  all: first [reflexivity
             |cbv [launches omap list_omap launched]; discriminate].
Qed.

(** X10: the script changes nothing by itself.  A run of [main] that
    starts no command and makes no directory leaves the world exactly as it
    found it: whatever else changes during a run is the doing of a command it
    started or of the creation of [separated_stems]. *)
Theorem main_changes_world_only_by_commands_and_mkdir
    (env : Env) (argv : option (list string)) (st : State) :
  launches (since st (snd (main env argv st))) = [] ->
  mkdirs (since st (snd (main env argv st))) = [] ->
  world (snd (main env argv st)) = world st.
Proof.
  destruct (main_cases env argv st)
    as [(Hlen & Hmain)|[(p & Harg & _ & Hmain)
                       |[(p & r & Harg & _ & Hr & Hmain & Hsince)
                        |(p & Harg & _ & Hret & Hmain & Hsince)]]].
  - rewrite Hmain. reflexivity.
  - rewrite Hmain. reflexivity.
  - rewrite Hsince, Hmain. cbn [snd].
    change (EvExists (str (Path p)) true :: ?l) with ([EvExists (str (Path p)) true] ++ l)%list.
    rewrite launches_app. cbn [launches omap list_omap launched app].
    intros Hnone _.
    now rewrite (ensure_dependencies_frame env (input_found st p) Hnone).
  - rewrite Hsince, Hmain. cbn [snd].
    change (EvExists (str (Path p)) true :: ?l) with ([EvExists (str (Path p)) true] ++ l)%list.
    rewrite !launches_app. cbn [launches omap list_omap launched app].
    intros Hnone _. apply app_eq_nil in Hnone. destruct Hnone as [Hnone1 Hnone2].
    set (st2 := snd (ensure_dependencies env (input_found st p))) in *.
    destruct (output_dir_ready_dec env (world st2)) as [Hready|Hnot].
    + exfalso. revert Hnone2.
      rewrite (separate_song_run env (Path p) st2 Hready).
      cbn [snd]. rewrite since_app, !launches_app.
      intros Habs. apply app_eq_nil in Habs. destruct Habs as [_ Habs].
      apply app_eq_nil in Habs. destruct Habs as [Habs _].
      cbv [launches omap list_omap launched] in Habs. discriminate Habs.
    + destruct (separate_song_not_ready env (Path p) st2 Hnot) as [e He].
      rewrite He. cbn [snd]. unfold st2.
      now rewrite (ensure_dependencies_frame env (input_found st p) Hnone1).
Qed.

Lemma main_changes_world_only_by_commands_and_mkdir_witness :
  world (snd (main (mkEnv Sample.python ["song_splitter.py"; "song.mp3"]
                      Sample.nothing_on_path (Sample.exits_with 0)
                      Sample.absolute Sample.writable)
                None (Sample.fresh Sample.song_only)))
  = Sample.song_only.
Proof.
  apply (main_changes_world_only_by_commands_and_mkdir
           (mkEnv Sample.python ["song_splitter.py"; "song.mp3"]
              Sample.nothing_on_path (Sample.exits_with 0) Sample.absolute Sample.writable)
           None (Sample.fresh Sample.song_only)).
  - reflexivity.
  - reflexivity.
Defined.




Example main_reports_failed_run :
  fst (main (Sample.env ["song_splitter.py"; "song.mp3"] 2) None
         (Sample.fresh Sample.song_only)) = Return 0%Z
  /\ last (trace (snd (main (Sample.env ["song_splitter.py"; "song.mp3"] 2) None
                         (Sample.fresh Sample.song_only))))
     = Some (EvStdout run_error_text).
Proof. split; vm_compute; reflexivity. Qed.


(** ** Paths as pathlib prints them *)

Example Path_prints_normal_form :
  map (fun s => str (Path s))
      ["./song.mp3"; "a//b"; ""; "."; "//a"; "///a"; "/"; "a/./b/"; "..";
       "a/.."; "/a/b/"; "music/song.mp3"]
  = ["song.mp3"; "a/b"; "."; "."; "//a"; "/a"; "/"; "a/b"; "..";
     "a/.."; "/a/b"; "music/song.mp3"].
Proof. reflexivity. Qed.

Example Path_name_is_last_name :
  map (fun s => name (Path s)) ["./song.mp3"; "a//b"; ""; "/"; "a/./b/"; ".."]
  = ["song.mp3"; "b"; ""; ""; "b"; ".."].
Proof. reflexivity. Qed.

(** The input is looked up and handed on in the printed form: [./song.mp3]
    finds [song.mp3], and the empty argument is the working directory. *)
Example main_finds_respelled_input :
  launches (trace (snd (main (Sample.env ["song_splitter.py"; "./song.mp3"] 0)
                         None (Sample.fresh Sample.song_only))))
  = [[Sample.python; "-m"; "demucs"; "-n"; "htdemucs";
      "-o"; "separated_stems"; "song.mp3"]]
  /\ launches (trace (snd (main (Sample.env ["song_splitter.py"; ""] 0)
                            None (Sample.fresh Sample.song_only))))
     = [[Sample.python; "-m"; "demucs"; "-n"; "htdemucs";
         "-o"; "separated_stems"; "."]].
Proof. split; vm_compute; reflexivity. Qed.

(** A refused [mkdir] on a free name ends [main] like a blocked one. *)
Example main_raises_when_mkdir_refused :
  fst (main (mkEnv Sample.python ["song_splitter.py"; "song.mp3"]
               Sample.on_path (Sample.exits_with 0) Sample.absolute
               Sample.read_only)
         None (Sample.fresh Sample.song_only))
  = Raise (Exc (OtherError "[Errno 13] Permission denied: 'separated_stems'")).
Proof. vm_compute. reflexivity. Qed.
